(** * TikTok export processing and donation flow (port/script.py)

    A shallow embedding of [script.py]: JSON documents as an inductive
    type, Python exceptions as an error monad, generators as finite
    streams that may end in an exception, [datetime] values as a count of
    seconds, pandas frames as column names with rows of cells, and the
    donation flow ([DataDonationProcessor.process]) as a function from
    the list of responses delivered to the coroutine to the commands it
    yields. *)

From Stdlib Require Import ZArith Lia Ascii String.
From stdpp Require Import base list strings sorting gmap pretty.

Open Scope Z_scope.

(** ** Exceptions and results *)

(** The exception classes the script can meet.  [IOError] is Python 3's
    alias of [OSError]; [JSONDecodeError] and [UnicodeDecodeError] are
    subclasses of [ValueError]; [BadZipFile] derives from [Exception]
    directly. *)
Inductive exn :=
  | IOError
  | JSONDecodeError
  | UnicodeDecodeError
  | BadZipFile
  | AttributeError
  | KeyError
  | TypeError
  | ValueError
  | InvalidFileError.

Inductive res (A : Type) :=
  | Ok (a : A)
  | Raise (e : exn).
Arguments Ok {A} a.
Arguments Raise {A} e.

#[global] Instance res_ret : MRet res := fun A a => Ok a.
#[global] Instance res_bind : MBind res := fun A B k r =>
  match r with
  | Ok a => k a
  | Raise e => Raise e
  end.

(** [except IOError] *)
Definition is_IOError (e : exn) : bool :=
  match e with IOError => true | _ => false end.

(** [except InvalidFileError] *)
Definition is_InvalidFileError (e : exn) : bool :=
  match e with InvalidFileError => true | _ => false end.

(** [except (json.decoder.JSONDecodeError, UnicodeDecodeError)] *)
Definition is_decode_error (e : exn) : bool :=
  match e with JSONDecodeError | UnicodeDecodeError => true | _ => false end.

(** [suppress(IOError, json.JSONDecodeError)] *)
Definition is_suppressed_in_zip (e : exn) : bool :=
  match e with IOError | JSONDecodeError => true | _ => false end.

Set Warnings "-register-all".

(** ** JSON documents, as [json.load] returns them *)

(** [JNull] is Python's [None]; an object is a [dict], kept as an
    association list in insertion order with unique keys. *)
Inductive json :=
  | JNull
  | JBool (b : bool)
  | JInt (n : Z)
  | JStr (s : string)
  | JArr (l : list json)
  | JObj (kv : list (string * json)).

Fixpoint lookup_key (k : string) (kv : list (string * json)) : option json :=
  match kv with
  | [] => None
  | (k', v) :: kv' => if String.eqb k k' then Some v else lookup_key k kv'
  end.

(** [==] on parsed JSON values.  [True] and [False] are the numbers 1 and
    0; lists are equal when they have equal items at every position; two
    dicts are equal when they have as many keys and every key of the
    first has an equal value in the second, whatever the order of the
    keys. *)
Fixpoint json_eqb (a b : json) {struct a} : bool :=
  match a, b with
  | JNull, JNull => true
  | JBool x, JBool y => Bool.eqb x y
  | JBool x, JInt y => Z.eqb (if x then 1 else 0) y
  | JInt x, JBool y => Z.eqb x (if y then 1 else 0)
  | JInt x, JInt y => Z.eqb x y
  | JStr x, JStr y => String.eqb x y
  | JArr x, JArr y =>
      (fix go (x y : list json) : bool :=
         match x, y with
         | [], [] => true
         | v :: x', w :: y' => json_eqb v w && go x' y'
         | _, _ => false
         end) x y
  | JObj x, JObj y =>
      Nat.eqb (length x) (length y)
      && (fix go (x : list (string * json)) : bool :=
            match x with
            | [] => true
            | (k, v) :: x' =>
                match lookup_key k y with
                | Some w => json_eqb v w
                | None => false
                end && go x'
            end) x
  | _, _ => false
  end.

(** Truth value of a JSON value ([not x] is its negation). *)
Definition truthy (v : json) : bool :=
  match v with
  | JNull => false
  | JBool b => b
  | JInt n => negb (n =? 0)
  | JStr s => negb (String.eqb s "")
  | JArr l => match l with [] => false | _ => true end
  | JObj kv => match kv with [] => false | _ => true end
  end.

(** [d.get(k, None)]: only a [dict] has [.get]. *)
Definition dict_get (d : json) (k : string) : res json :=
  match d with
  | JObj kv => Ok (default JNull (lookup_key k kv))
  | _ => Raise AttributeError
  end.

(** [item[k]] with a string key. *)
Definition subscript (item : json) (k : string) : res json :=
  match item with
  | JObj kv => match lookup_key k kv with
               | Some v => Ok v
               | None => Raise KeyError
               end
  | _ => Raise TypeError
  end.

Fixpoint get_in (data_dict : json) (key_path : list string) : res json :=
  match key_path with
  | [] => Ok data_dict
  | k :: key_path' =>
      data_dict' ← dict_get data_dict k;
      match data_dict' with
      | JNull => Ok JNull
      | _ => get_in data_dict' key_path'
      end
  end.

Definition get_list (data_dict : json) (key_path : list string) : res json :=
  result ← get_in data_dict key_path;
  match result with
  | JNull => Ok (JArr [])
  | _ => Ok result
  end.

Definition get_dict (data_dict : json) (key_path : list string) : res json :=
  result ← get_in data_dict key_path;
  match result with
  | JNull => Ok (JObj [])
  | _ => Ok result
  end.

Definition get_string (data_dict : json) (key_path : list string) : res json :=
  result ← get_in data_dict key_path;
  match result with
  | JNull => Ok (JStr "")
  | _ => Ok result
  end.

Definition cast_number (data_dict : json) (key_path : list string) : res json :=
  value ← get_in data_dict key_path;
  match value with
  | JNull => Ok (JInt 0)
  | _ => if json_eqb value (JStr "None") then Ok (JInt 0) else Ok value
  end.

Definition get_user_name (data : json) : res json :=
  get_in data ["Profile"; "Profile Information"; "ProfileMap"; "userName"].

(** ** Dates and times *)

(** A naive [datetime.datetime] at one-second resolution (the format
    string has no fractional part), represented by the number of seconds
    since 1970-01-01 00:00:00; comparison of datetimes is comparison of
    these numbers and the difference of two datetimes is a [timedelta],
    here a number of seconds. *)
Definition datetime := Z.
Definition timedelta := Z.

(** Days from 1970-01-01 to the proleptic Gregorian date [y]-[m]-[d]. *)
Definition days_from_civil (y m d : Z) : Z :=
  let y' := if m <=? 2 then y - 1 else y in
  let era := y' / 400 in
  let yoe := y' - era * 400 in
  let doy := (153 * (if 2 <? m then m - 3 else m + 9) + 2) / 5 + d - 1 in
  let doe := yoe * 365 + yoe / 4 - yoe / 100 + doy in
  era * 146097 + doe - 719468.

(** The inverse: year, month and day of a day number. *)
Definition civil_from_days (z : Z) : Z * Z * Z :=
  let z := z + 719468 in
  let era := z / 146097 in
  let doe := z - era * 146097 in
  let yoe := (doe - doe / 1460 + doe / 36524 - doe / 146096) / 365 in
  let doy := doe - (365 * yoe + yoe / 4 - yoe / 100) in
  let mp := (5 * doy + 2) / 153 in
  let d := doy - (153 * mp + 2) / 5 + 1 in
  let m := if mp <? 10 then mp + 3 else mp - 9 in
  (yoe + era * 400 + (if m <=? 2 then 1 else 0), m, d).

(** [datetime.datetime(y, m, d, hh, mm, ss)] *)
Definition mk_datetime (y m d hh mm ss : Z) : datetime :=
  ((days_from_civil y m d * 24 + hh) * 60 + mm) * 60 + ss.

Definition dt_date (t : datetime) : Z * Z * Z := civil_from_days (t / 86400).
Definition dt_hour (t : datetime) : Z := (t / 3600) mod 24.
Definition dt_minute (t : datetime) : Z := (t / 60) mod 60.
Definition dt_second (t : datetime) : Z := t mod 60.

Definition filter_start : datetime := mk_datetime 2021 1 1 0 0 0.
Definition filter_end : datetime := mk_datetime 2025 1 1 0 0 0.

(** [datetime.timedelta(minutes=5)] *)
Definition five_minutes : timedelta := 5 * 60.

Definition is_leap (y : Z) : bool :=
  (y mod 4 =? 0) && (negb (y mod 100 =? 0) || (y mod 400 =? 0)).

Definition days_in_month (y m : Z) : Z :=
  if m =? 2 then (if is_leap y then 29 else 28)
  else if (m =? 4) || (m =? 6) || (m =? 9) || (m =? 11) then 30
  else 31.

Definition digit (c : ascii) : option Z :=
  let n := Z.of_nat (nat_of_ascii c) in
  if (48 <=? n) && (n <=? 57) then Some (n - 48) else None.

Definition two_digits (a b : ascii) : option Z :=
  x ← digit a; y ← digit b; Some (10 * x + y).

Definition sep (c : ascii) (expected : string) : option unit :=
  if String.eqb (String c "") expected then Some () else None.

(** Modelled from the spec: [datetime.strptime] with
    [datetime_format = "%Y-%m-%d %H:%M:%S"] is library code; the text must
    match the fixed pattern [YYYY-MM-DD HH:MM:SS] exactly and name an
    existing date and time of day, anything else is a format failure. *)
Definition strptime (text : string) : option datetime :=
  match list_ascii_of_string text with
  | [y1; y2; y3; y4; s1; m1; m2; s2; d1; d2; s3; h1; h2; s4; n1; n2; s5; c1; c2] =>
      yh ← two_digits y1 y2; yl ← two_digits y3 y4;
      _ ← sep s1 "-"; m ← two_digits m1 m2;
      _ ← sep s2 "-"; d ← two_digits d1 d2;
      _ ← sep s3 " "; hh ← two_digits h1 h2;
      _ ← sep s4 ":"; mm ← two_digits n1 n2;
      _ ← sep s5 ":"; ss ← two_digits c1 c2;
      let y := 100 * yh + yl in
      if (1 <=? y) && (1 <=? m) && (m <=? 12) && (1 <=? d)
         && (d <=? days_in_month y m) && (hh <? 24) && (mm <? 60) && (ss <? 60)
      then Some (mk_datetime y m d hh mm ss)
      else None
  | _ => None
  end.

(** [strptime] wants a [str]; a value of another type is a [TypeError],
    a text that does not match is a [ValueError]. *)
Definition parse_datetime (value : json) : res datetime :=
  match value with
  | JStr text => match strptime text with
                 | Some t => Ok t
                 | None => Raise ValueError
                 end
  | _ => Raise TypeError
  end.

Definition pad2 (n : Z) : string :=
  if n <? 10 then "0" +:+ pretty n else pretty n.

(** [%Y] written with four digits.  For a year below 1000 the C library
    decides whether zeros are put in front; they are put here. *)
Definition pad4 (n : Z) : string :=
  if n <? 10 then "000" +:+ pretty n
  else if n <? 100 then "00" +:+ pretty n
  else if n <? 1000 then "0" +:+ pretty n
  else pretty n.

(** [strftime("%Y-%m-%d")] *)
Definition strftime_date (t : datetime) : string :=
  let '(y, m, d) := dt_date t in
  pad4 y +:+ "-" +:+ pad2 m +:+ "-" +:+ pad2 d.

(** [strftime("%Y-%m-%d %H:%M")] *)
Definition strftime_minute (t : datetime) : string :=
  strftime_date t +:+ " " +:+ pad2 (dt_hour t) +:+ ":" +:+ pad2 (dt_minute t).

(** [strftime("%Y-%m-%d %H:00:00")] *)
Definition strftime_hour (t : datetime) : string :=
  strftime_date t +:+ " " +:+ pad2 (dt_hour t) +:+ ":00:00".

(** [date.replace(minute=0, second=0, microsecond=0)] *)
Definition hourly_key (date : datetime) : datetime := date - date mod 3600.

(** [date.date()], as a day number *)
Definition daily_key (date : datetime) : Z := date / 86400.

(** The label [f"{hour}-{hour+1}"] of [map_to_timeslot]. *)
Definition timeslot (hour : Z) : string :=
  pretty hour +:+ "-" +:+ pretty (hour + 1).

(** ** Generators *)

(** A finite generator: the items it yields and, when iteration ends in
    an exception instead of [StopIteration], that exception. *)
Definition gen (A : Type) : Type := list A * option exn.

(** [list(g)] *)
Definition gen_list {A} (g : gen A) : res (list A) :=
  match g with
  | (l, None) => Ok l
  | (_, Some e) => Raise e
  end.

(** Iterating a JSON value: a list yields its elements, a [dict] its keys,
    a [str] its characters; the other values are not iterable. *)
Definition iterate (v : json) : gen json :=
  match v with
  | JArr l => (l, None)
  | JObj kv => (map (fun p => JStr (fst p)) kv, None)
  | JStr s => (map (fun c => JStr (String c "")) (list_ascii_of_string s), None)
  | _ => ([], Some TypeError)
  end.

(** [itertools.chain] over the unpacked iterables *)
Fixpoint chain {A} (iterables : list (gen A)) : gen A :=
  match iterables with
  | [] => ([], None)
  | (l, Some e) :: _ => (l, Some e)
  | (l, None) :: iterables' =>
      let '(l', t) := chain iterables' in (l ++ l', t)
  end.

(** The test of [get_date_filtered_items] that skips an item. *)
Definition outside_window (timestamp : datetime) : bool :=
  (timestamp <? filter_start) || (filter_end <? timestamp).

(** [parse_datetime(item["Date"])] *)
Definition item_timestamp (item : json) : res datetime :=
  d ← subscript item "Date"; parse_datetime d.

Fixpoint date_filtered_from (items : list json) (tail : option exn)
  : gen (datetime * json) :=
  match items with
  | [] => ([], tail)
  | item :: items' =>
      match item_timestamp item with
      | Raise e => ([], Some e)
      | Ok timestamp =>
          if outside_window timestamp then date_filtered_from items' tail
          else let '(out, t) := date_filtered_from items' tail in
               ((timestamp, item) :: out, t)
      end
  end.

Definition get_date_filtered_items (items : gen json) : gen (datetime * json) :=
  date_filtered_from (fst items) (snd items).

(** [(i[0] for i in items)] *)
Definition get_all_first {A B} (items : gen (A * B)) : gen A :=
  (map fst (fst items), snd items).

Definition filtered_count (data : json) (key_path : list string) : res Z :=
  items ← get_list data key_path;
  filtered_items ← gen_list (get_date_filtered_items (iterate items));
  Ok (Z.of_nat (length filtered_items)).

(** ** Counting and sessions *)

(** [item_count[key_func(timestamp)] += 1] on a [defaultdict(int)] *)
Definition count_timestamp (key_func : datetime -> Z) (item_count : gmap Z Z)
    (timestamp : datetime) : gmap Z Z :=
  let k := key_func timestamp in
  <[k := default 0 (item_count !! k) + 1]> item_count.

(** Order of the [(key, count)] tuples under [sorted]. *)
Definition pair_le (a b : Z * Z) : Prop :=
  a.1 < b.1 \/ (a.1 = b.1 /\ a.2 <= b.2).

#[global] Instance pair_le_dec : RelDecision pair_le.
Proof. intros a b. unfold pair_le. apply _. Defined.

Definition get_count_by_date_key (timestamps : gen datetime)
    (key_func : datetime -> Z) : res (list (Z * Z)) :=
  ts ← gen_list timestamps;
  let item_count := fold_left (count_timestamp key_func) ts ∅ in
  Ok (merge_sort pair_le (map_to_list item_count)).

Definition session : Type := datetime * datetime * timedelta.

(** One turn of the loop over [zip(timestamps, timestamps[1:])]. *)
Definition sessions_step (st : list session * datetime * datetime)
    (pc : datetime * datetime) : list session * datetime * datetime :=
  let '(sessions, start, end_) := st in
  let '(prev, cur) := pc in
  if five_minutes <? cur - prev
  then (sessions ++ [(start, end_, end_ - start)], cur, cur)
  else (sessions, start, cur).

Definition get_sessions (timestamps : list datetime) : list session :=
  let timestamps := merge_sort Z.le timestamps in
  match timestamps with
  | [] => []
  | [t0] => [(t0, t0, 0)]
  | t0 :: rest =>
      let '(sessions, start, end_) :=
        fold_left sessions_step (zip timestamps rest) ([], t0, t0) in
      sessions ++ [(start, end_, end_ - start)]
  end.

(** ** The export reader *)

(** What the file system and the [json] and [zipfile] libraries answer for
    one path: whether [open] raises, what [json.load] gives on the text,
    and what [zipfile.ZipFile] gives: an exception, or the entries in
    archive order, each with its name, whether [zip.open] raises, and
    what [json.load] gives on it. *)
Record zip_entry := {
  entry_name : string;
  entry_open : option exn;
  entry_load : res json
}.

Record file := {
  file_open : option exn;
  file_load : res json;
  file_zip : res (list zip_entry)
}.

Definition load_tiktok_data (json_file : res json) : res json :=
  data ← json_file;
  user_name ← get_user_name data;
  if negb (truthy user_name) then Raise IOError else Ok data.

(** [name.endswith(suffix)] *)
Definition endswith (name suffix : string) : bool :=
  String.prefix (String.rev suffix) (String.rev name).

Fixpoint scan_zip (entries : list zip_entry) : res (list json) :=
  match entries with
  | [] => Ok []
  | entry :: entries' =>
      if negb (endswith (entry_name entry) ".json") then scan_zip entries'
      else match entry_open entry with
           | Some e => Raise e
           | None =>
               match load_tiktok_data (entry_load entry) with
               | Ok data => Ok [data]
               | Raise e =>
                   if is_suppressed_in_zip e then scan_zip entries'
                   else Raise e
               end
           end
  end.

Definition get_json_data_from_zip (zip_file : file) : res (list json) :=
  entries ← file_zip zip_file;
  scan_zip entries.

Definition get_json_data_from_file (file_ : file) : res (list json) :=
  match file_open file_ with
  | Some e =>
      if is_decode_error e then get_json_data_from_zip file_ else Raise e
  | None =>
      match load_tiktok_data (file_load file_) with
      | Ok data => Ok [data]
      | Raise e =>
          if is_decode_error e then get_json_data_from_zip file_ else Raise e
      end
  end.

(** ** Frames and extraction results *)

(** A cell of a pandas frame: a number, a text, a value taken as it is
    from the document, a missing value, or a duration in seconds shown as
    [(seconds / 60).round(2)] minutes.  Numbers are kept exact here; a
    pandas column holds them in 64 bits. *)
Inductive cell :=
  | CInt (n : Z)
  | CStr (s : string)
  | CJson (v : json)
  | CNaN
  | CMinutes (seconds : Z).

Record DataFrame := {
  columns : list string;
  rows : list (list cell)
}.

(** [props.Translatable]: texts by language. *)
Definition Translatable : Type := list (string * string).

Record vis_value := {
  value_column : string;
  value_label : string;
  aggregate : string;
  addZeroes : bool
}.

Record visualization := {
  vis_title : Translatable;
  vis_type : string;
  group_column : string;
  group_label : string;
  dateFormat : string;
  vis_values : list vis_value
}.

Record ExtractionResult := {
  id_ : string;
  title : Translatable;
  data_frame : DataFrame;
  description : option Translatable;
  visualizations : option (list visualization)
}.

(** ** The table extractors *)

(** An extractor returns a result, [None] ("no result"), or raises. *)
Definition extractor : Type := json -> res (option ExtractionResult).

Definition get_activity_video_browsing_list_data (data : json) : res json :=
  get_list data ["Activity"; "Video Browsing History"; "VideoList"].

Definition get_comment_list_data (data : json) : res json :=
  get_in data ["Comment"; "Comments"; "CommentsList"].

Definition get_chat_history (data : json) : res json :=
  get_dict data ["Direct Messages"; "Chat History"; "ChatHistory"].

(** [history.values()] needs a [dict]; the threads are then chained. *)
Definition flatten_chat_history (history : json) : res (gen json) :=
  match history with
  | JObj kv => Ok (chain (map (fun p => iterate (snd p)) kv))
  | _ => Raise AttributeError
  end.

(** A loop [for x in items: s = body(s, x)] over a generator. *)
Fixpoint for_each {A S} (body : S -> A -> res S) (items : list A)
    (tail : option exn) (s : S) : res S :=
  match items with
  | [] => match tail with
          | None => Ok s
          | Some e => Raise e
          end
  | x :: items' => s' ← body s x; for_each body items' tail s'
  end.

(** [len(list(filter(lambda item: test(item[1]["From"]), items)))] *)
Definition count_from (test : json -> bool) (items : list (datetime * json))
    : res Z :=
  for_each (fun n item =>
              from ← subscript (snd item) "From";
              Ok (if test from then n + 1 else n))
           items None 0.

Definition extract_summary_data : extractor := fun data =>
  user_name ← get_user_name data;
  chat_history ← get_chat_history data;
  flattened ← flatten_chat_history chat_history;
  direct_messages_in_period ← gen_list (get_date_filtered_items flattened);
  sent_count ←
    count_from (fun from => json_eqb from user_name) direct_messages_in_period;
  received_count ←
    count_from (fun from => negb (json_eqb from user_name))
               direct_messages_in_period;
  followers ← filtered_count data ["Activity"; "Follower List"; "FansList"];
  following ← filtered_count data ["Activity"; "Following List"; "Following"];
  likes_received ←
    cast_number data
      ["Profile"; "Profile Information"; "ProfileMap"; "likesReceived"];
  videos_posted ← filtered_count data ["Video"; "Videos"; "VideoList"];
  likes_given ← filtered_count data ["Activity"; "Like List"; "ItemFavoriteList"];
  comments_posted ← filtered_count data ["Comment"; "Comments"; "CommentsList"];
  videos_watched ←
    filtered_count data ["Activity"; "Video Browsing History"; "VideoList"];
  Ok (Some {|
    id_ := "tiktok_summary";
    title := [("en", "Summary information"); ("nl", "Samenvatting gegevens")];
    data_frame := {|
      columns := ["Description"; "Number"];
      rows := [
        [CStr "Followers"; CInt followers];
        [CStr "Following"; CInt following];
        [CStr "Likes received"; CJson likes_received];
        [CStr "Videos posted"; CInt videos_posted];
        [CStr "Likes given"; CInt likes_given];
        [CStr "Comments posted"; CInt comments_posted];
        [CStr "Messages sent"; CInt sent_count];
        [CStr "Messages received"; CInt received_count];
        [CStr "Videos watched"; CInt videos_watched]
      ] |};
    description := None;
    visualizations := None |}).

(** The frame [pd.DataFrame(records, columns=[...])] of a list of records
    (dicts): one row per record, a key that a record lacks gives a missing
    value.  Pandas is library code; frames are built here from a list of
    objects, anything else is refused with a [ValueError]. *)
Definition record_cell (record : list (string * json)) (column : string) : cell :=
  match lookup_key column record with
  | Some v => CJson v
  | None => CNaN
  end.

Definition frame_records (records : json) : res (list (list (string * json))) :=
  match records with
  | JArr l => mapM (fun r => match r with
                             | JObj kv => Ok kv
                             | _ => Raise ValueError
                             end) l
  | _ => Raise ValueError
  end.

(** [parse_datetime] mapped over a column of the frame.  The column of a
    frame without rows has no datetime type: its [.dt] accessor, like
    [strftime] on the index of such a frame, is an [AttributeError]; the
    extractors that use them raise it after they have read their items. *)
Definition parse_cell (c : cell) : res datetime :=
  match c with
  | CJson v => parse_datetime v
  | _ => Raise TypeError
  end.

Definition hour_cycle (title_ : Translatable) (values : list vis_value)
    (column : string) : visualization :=
  {| vis_title := title_; vis_type := "bar"; group_column := column;
     group_label := "Hour of the day"; dateFormat := "hour_cycle";
     vis_values := values |}.

Definition extract_videos_viewed : extractor := fun data =>
  videos ← get_activity_video_browsing_list_data data;
  records ← frame_records videos;
  rows_ ← mapM (fun record =>
                  let date_cell := record_cell record "Date" in
                  date ← parse_cell date_cell;
                  Ok [date_cell; CStr (timeslot (dt_hour date));
                      record_cell record "Link"]) records;
  match rows_ with
  | [] => Raise AttributeError
  | _ =>
      Ok (Some {|
        id_ := "tiktok_videos_viewed";
        title := [("en", "Video views"); ("nl", "Videos gezien")];
        data_frame := {| columns := ["Date"; "Timeslot"; "Link"]; rows := rows_ |};
        description :=
          Some [("en", "This table contains the videos you watched on TikTok")];
        visualizations := Some [
          hour_cycle
            [("en", "The percentage of videos viewed within each hour from your daily total");
             ("nl", "Het percentage van bekeken video's binnen elk uur van je dagelijkse totaal")]
            [{| value_column := "Link"; value_label := "Percentage of videos viewed";
                aggregate := "count_pct"; addZeroes := true |}]
            "Date"] |})
  end.

(** The white space that [int] strips from both ends of a text. *)
Definition is_space (c : ascii) : bool :=
  let n := Z.of_nat (nat_of_ascii c) in
  ((9 <=? n) && (n <=? 13)) || ((28 <=? n) && (n <=? 32)).

Fixpoint lstrip (cs : list ascii) : list ascii :=
  match cs with
  | [] => []
  | c :: cs' => if is_space c then lstrip cs' else cs
  end.

Definition strip (cs : list ascii) : list ascii :=
  rev (lstrip (rev (lstrip cs))).

(** The value of what follows a digit: more digits, each of which may
    have one underscore before it. *)
Fixpoint digits_value (cs : list ascii) (acc : Z) : option Z :=
  match cs with
  | [] => Some acc
  | c :: cs' =>
      match digit c with
      | Some d => digits_value cs' (10 * acc + d)
      | None =>
          if String.eqb (String c "") "_" then
            match cs' with
            | [] => None
            | c' :: cs'' => d ← digit c'; digits_value cs'' (10 * acc + d)
            end
          else None
      end
  end.

(** A digit, and what follows it. *)
Definition digits (cs : list ascii) : option Z :=
  match cs with
  | [] => None
  | c :: cs' => d ← digit c; digits_value cs' d
  end.

(** [int(text)] in base 10, for a text of ASCII characters: white space
    at both ends is dropped, then come an optional sign and decimal
    digits, which single underscores may group. *)
Definition int_of_text (text : string) : option Z :=
  match strip (list_ascii_of_string text) with
  | [] => None
  | c :: cs =>
      if String.eqb (String c "") "-" then n ← digits cs; Some (- n)
      else if String.eqb (String c "") "+" then digits cs
      else digits (c :: cs)
  end.

(** [int(value)] on a JSON value. *)
Definition py_int (value : json) : res Z :=
  match value with
  | JInt n => Ok n
  | JBool b => Ok (if b then 1 else 0)
  | JStr text => match int_of_text text with
                 | Some n => Ok n
                 | None => Raise ValueError
                 end
  | _ => Raise TypeError
  end.

(** [post_stats], a [defaultdict] of [defaultdict(int)], kept in the order
    in which its keys were first met: per hour, the number of videos and
    the likes received. *)
Fixpoint post_stats_add (k : datetime) (likes : Z)
    (post_stats : list (datetime * (Z * Z))) : list (datetime * (Z * Z)) :=
  match post_stats with
  | [] => [(k, (1, likes))]
  | (k', (videos, total)) :: post_stats' =>
      if k =? k' then (k', (videos + 1, total + likes)) :: post_stats'
      else (k', (videos, total)) :: post_stats_add k likes post_stats'
  end.

Definition video_posts_body (post_stats : list (datetime * (Z * Z)))
    (item : datetime * json) : res (list (datetime * (Z * Z))) :=
  let '(date, video) := item in
  likes_text ← subscript video "Likes";
  likes ← py_int likes_text;
  Ok (post_stats_add (hourly_key date) likes post_stats).

Definition extract_video_posts : extractor := fun data =>
  video_list ← get_in data ["Video"; "Videos"; "VideoList"];
  match video_list with
  | JNull => Ok None
  | _ =>
      let videos := get_date_filtered_items (iterate video_list) in
      post_stats ← for_each video_posts_body (fst videos) (snd videos) [];
      match post_stats with
      | [] => Raise AttributeError
      | _ =>
          Ok (Some {|
            id_ := "tiktok_posts";
            title := [("en", "Video posts"); ("nl", "Video posts")];
            data_frame := {|
              columns := ["Date"; "Timeslot"; "Videos"; "Likes received"];
              rows := map (fun '(k, (videos_, likes)) =>
                             [CStr (strftime_date k); CStr (timeslot (dt_hour k));
                              CInt videos_; CInt likes]) post_stats |};
            description := Some [("en", "This table contains the number of videos you yourself posted and the number of likes you received. For anonymization, videos are grouped by the hour they were posted and the exact time removed")];
            visualizations := None |})
      end
  end.

(** The count of [k] in a sorted [(key, count)] list, 0 when the outer
    join finds no row for [k] ([fillna(0)]). *)
Fixpoint count_at (counts : list (Z * Z)) (k : Z) : Z :=
  match counts with
  | [] => 0
  | (k', n) :: counts' => if k =? k' then n else count_at counts' k
  end.

Definition extract_comments_and_likes : extractor := fun data =>
  comment_items ← get_list data ["Comment"; "Comments"; "CommentsList"];
  comment_counts ←
    get_count_by_date_key
      (get_all_first (get_date_filtered_items (iterate comment_items)))
      hourly_key;
  like_items ← get_list data ["Activity"; "Like List"; "ItemFavoriteList"];
  likes_given_counts ←
    get_count_by_date_key
      (get_all_first (get_date_filtered_items (iterate like_items)))
      hourly_key;
  match likes_given_counts with
  | [] => Ok None
  | _ =>
      let keys := merge_sort Z.le
                    (remove_dups (map fst comment_counts
                                  ++ map fst likes_given_counts)) in
      Ok (Some {|
        id_ := "tiktok_comments_and_likes";
        title := [("en", "Comments and likes"); ("nl", "Comments en likes")];
        data_frame := {|
          columns := ["Date"; "Timeslot"; "Comment posts"; "Likes given"];
          rows := map (fun k =>
                         [CStr (strftime_hour k); CStr (timeslot (dt_hour k));
                          CInt (count_at comment_counts k);
                          CInt (count_at likes_given_counts k)]) keys |};
        description := Some [("en", "This table contains the number of likes you gave and comments you made.")];
        visualizations := Some [
          hour_cycle
            [("en", "The average number of likes and comments you gave within each hour of the day");
             ("nl", "The gemiddelde aantal likes en comments dat je gaf binnen elk uur van de dag")]
            [{| value_column := "Comment posts";
                value_label := "Average number of comments made";
                aggregate := "mean"; addZeroes := true |};
             {| value_column := "Likes given";
                value_label := "Average number of likes given";
                aggregate := "mean"; addZeroes := true |}]
            "Date"] |})
  end.

Definition minutes_value : list vis_value :=
  [{| value_column := "Duration (in minutes)"; value_label := "Number of minutes";
      aggregate := "pct"; addZeroes := true |}].

Definition extract_session_info : extractor := fun data =>
  videos ← get_list data ["Video"; "Videos"; "VideoList"];
  browsing ← get_list data ["Activity"; "Video Browsing History"; "VideoList"];
  comments ← get_list data ["Comment"; "Comments"; "CommentsList"];
  let item_lists := [iterate videos; iterate browsing; iterate comments] in
  let dates := get_all_first (get_date_filtered_items (chain item_lists)) in
  timestamps ← gen_list dates;
  let sessions := get_sessions timestamps in
  match sessions with
  | [] => Raise AttributeError
  | _ =>
      Ok (Some {|
        id_ := "tiktok_session_info";
        title := [("en", "Session information"); ("nl", "Sessie informatie")];
        data_frame := {|
          columns := ["Start"; "Duration (in minutes)"];
          rows := map (fun '(start, _, duration) =>
                         [CStr (strftime_minute start); CMinutes duration])
                      sessions |};
        description := Some [("en", "This table contains the start date and duration of your TikTok sessions")];
        visualizations := Some [
          {| vis_title := [("en", "Number of minutes spent on TikTok per month")];
             vis_type := "area"; group_column := "Start"; group_label := "Month";
             dateFormat := "month";
             vis_values := [{| value_column := "Duration (in minutes)";
                               value_label := "Number of minutes";
                               aggregate := "sum"; addZeroes := true |}] |};
          {| vis_title := [("en", "Average time spent on TikTok per day of the week")];
             vis_type := "bar"; group_column := "Start";
             group_label := "Day of the week"; dateFormat := "weekday_cycle";
             vis_values := minutes_value |};
          hour_cycle [("en", "Average time spent on TikTok per hour of the day")]
                     minutes_value "Start"] |})
  end.

(** Keys of the [anon_ids] dictionary: the hashable JSON values.  [True]
    and [False] hash and compare as [1] and [0]; lists and dicts are not
    hashable. *)
Inductive pykey :=
  | KNone
  | KInt (n : Z)
  | KStr (s : string).

#[global] Instance pykey_eq_dec : EqDecision pykey.
Proof. solve_decision. Defined.

#[global] Instance pykey_countable : Countable pykey.
Proof.
  refine (inj_countable'
            (fun k => match k with
                      | KNone => inl ()
                      | KInt n => inr (inl n)
                      | KStr s => inr (inr s)
                      end)
            (fun x => match x with
                      | inl _ => KNone
                      | inr (inl n) => KInt n
                      | inr (inr s) => KStr s
                      end) _).
  intros []; reflexivity.
Defined.

Definition to_key (v : json) : res pykey :=
  match v with
  | JNull => Ok KNone
  | JBool b => Ok (KInt (if b then 1 else 0))
  | JInt n => Ok (KInt n)
  | JStr s => Ok (KStr s)
  | _ => Raise TypeError
  end.

(** [anon_ids[k]] on [defaultdict(lambda: next(counter))]: the dictionary
    together with the next value of [itertools.count(start=1)]. *)
Definition anon_state : Type := gmap pykey Z * Z.

Definition anon_ids_get (st : anon_state) (k : pykey) : Z * anon_state :=
  match st.1 !! k with
  | Some v => (v, st)
  | None => (st.2, (<[k := st.2]> st.1, st.2 + 1))
  end.

Definition direct_messages_body (acc : anon_state * list (list cell))
    (item : json) : res (anon_state * list (list cell)) :=
  let '(anon_ids, table) := acc in
  from ← subscript item "From";
  k ← to_key from;
  let '(anon_id, anon_ids') := anon_ids_get anon_ids k in
  sent ← item_timestamp item;
  Ok (anon_ids', table ++ [[CInt anon_id; CStr (strftime_minute sent)]]).

Definition extract_direct_messages : extractor := fun data =>
  history ← get_in data ["Direct Messages"; "Chat History"; "ChatHistory"];
  user_name ← get_user_name data;
  own ← to_key user_name;
  let anon_ids := (anon_ids_get (∅, 1) own).2 in
  items ← flatten_chat_history history;
  '(_, table) ← for_each direct_messages_body (fst items) (snd items)
                         (anon_ids, []);
  Ok (Some {|
    id_ := "tiktok_direct_messages";
    title := [("en", "Direct Message Activity"); ("nl", "Berichten activiteit")];
    data_frame := {| columns := ["Anonymous ID"; "Sent"]; rows := table |};
    description := Some [("en", "This table contains the times at which you sent or received direct messages. The content of the messages is not included, and user names are replaced with anonymous IDs.")];
    visualizations := None |}).

(** ** The extractors taken out of the orchestrator *)

(** One turn of [table.append(parse_datetime(item["Date"]).strftime(...))]. *)
Definition minute_stamp_body (timestamps : list string) (item : json)
    : res (list string) :=
  posted ← item_timestamp item;
  Ok (timestamps ++ [strftime_minute posted]).

Definition extract_comment_activity : extractor := fun data =>
  comments ← get_in data ["Comment"; "Comments"; "CommentsList"];
  match comments with
  | JNull => Ok None
  | _ =>
      let items := iterate comments in
      timestamps ← for_each minute_stamp_body (fst items) (snd items) [];
      Ok (Some {|
        id_ := "tiktok_comment_activity";
        title := [("en", "Comment Activity"); ("nl", "Commentaar activiteit")];
        data_frame := {| columns := ["Posted on"];
                         rows := map (fun t => [CStr t]) timestamps |};
        description := None;
        visualizations := None |})
  end.

Definition extract_videos_liked : extractor := fun data =>
  favorite_videos ←
    get_in data ["Activity"; "Favorite Videos"; "FavoriteVideoList"];
  match favorite_videos with
  | JNull => Ok None
  | _ =>
      let items := iterate favorite_videos in
      liked ← for_each minute_stamp_body (fst items) (snd items) [];
      Ok (Some {|
        id_ := "tiktok_videos_liked";
        title := [("en", "Videos liked"); ("nl", "Gelikete videos")];
        data_frame := {| columns := ["Liked"];
                         rows := map (fun t => [CStr t]) liked |};
        description := None;
        visualizations := None |})
  end.

(** ** The extraction orchestrator *)

Definition extractors : list extractor := [
  extract_summary_data;
  extract_video_posts;
  extract_comments_and_likes;
  extract_videos_viewed;
  extract_session_info;
  extract_direct_messages
].

(** [None] when the reader yields no document. *)
Definition extract_tiktok_data (zip_file : file)
    : res (option (list ExtractionResult)) :=
  docs ← get_json_data_from_file zip_file;
  match docs with
  | [] => Ok None
  | data :: _ =>
      tables ← mapM (fun extractor_ : extractor => extractor_ data) extractors;
      Ok (Some (omap (fun table => table) tables))
  end.

(** ** The donation flow *)

(** The response the caller sends into the coroutine, by its [__type__]. *)
Inductive payload :=
  | PayloadString (value : string)
  | PayloadTrue
  | PayloadFalse
  | PayloadJSON (value : string)
  | PayloadVoid.

Record PropsUIPromptConsentFormTable := {
  table_id : string;
  table_title : Translatable;
  table_frame : DataFrame;
  table_description : option Translatable;
  table_visualizations : option (list visualization)
}.

Inductive page_body :=
  | PropsUIPromptFileInput (description_ : Translatable) (extensions : string)
  | PropsUIPromptConfirm (text ok cancel : Translatable)
  | PropsUIPromptConsentForm
      (tables meta_tables : list PropsUIPromptConsentFormTable)
      (description_ : option Translatable).

Record PropsUIPageDonation := {
  page_platform : string;
  header : Translatable;
  body : page_body;
  footer : Z
}.

Inductive command :=
  | CommandUIRender (page : PropsUIPageDonation)
  | CommandSystemDonate (key json_string : string).

Definition render_donation_page (platform : string) (body_ : page_body)
    (progress : Z) : command :=
  CommandUIRender {| page_platform := platform;
                     header := [("en", platform); ("nl", platform)];
                     body := body_;
                     footer := progress |}.

Definition retry_confirmation (platform : string) : page_body :=
  PropsUIPromptConfirm
    [("en", "Unfortunately, we cannot process your data. Please make sure that you selected JSON as a file format when downloading your data from TikTok.");
     ("nl", "Helaas kunnen we uw gegevens niet verwerken. Zorg ervoor dat u JSON heeft geselecteerd als bestandsformaat bij het downloaden van uw gegevens van TikTok.")]
    [("en", "Try again"); ("nl", "Probeer opnieuw")]
    [("en", "Continue"); ("nl", "Verder")].

Definition donate (key json_string : string) : command :=
  CommandSystemDonate key json_string.

(** Where a run of the coroutine stands once the responses are used up:
    it has returned, it is suspended at a [yield] waiting for the next
    response, or an exception has left it. *)
Inductive status :=
  | Returned
  | Suspended
  | Raised (e : exn).

Record run := {
  yielded : list command;
  result : status;
  meta_data : list (string * string)
}.

(** The run that yields [c] first and then goes on as [r]. *)
Definition yield_then (c : command) (r : run) : run :=
  {| yielded := c :: yielded r; result := result r; meta_data := meta_data r |}.

Definition stop (s : status) (meta_data_ : list (string * string)) : run :=
  {| yielded := []; result := s; meta_data := meta_data_ |}.

Section DataDonationProcessor.

Variable platform : string.
Variable mime_types : string.
Variable extractor_ : string -> res (option (list ExtractionResult)).
Variable session_id : string.

(** [self.progress], set to 0 and never changed *)
Definition progress : Z := 0.

Definition log (meta_data_ : list (string * string)) (message : string)
    : list (string * string) :=
  meta_data_ ++ [("debug", platform +:+ ": " +:+ message)].

Definition file_prompt : command :=
  render_donation_page platform
    (PropsUIPromptFileInput
       [("en", "Click 'Choose file' to choose the file that you received from TikTok. If you click 'Continue', the data that is required for research is extracted from your file. This may take a while, thank you for your patience.");
        ("nl", "Klik op ‘Kies bestand’ om het bestand dat u ontvangen hebt van TikTok te kiezen. Als u op 'Verder' klikt worden de gegevens die nodig zijn voor het onderzoek uit uw bestand gehaald. Dit kan soms even duren. Een moment geduld a.u.b.")]
       mime_types)
    progress.

Definition retry_prompt : command :=
  render_donation_page platform (retry_confirmation platform) progress.

(** The render request of [prompt_consent]; the log table is built
    before ["prompt consent"] is logged. *)
Definition consent_prompt (data : list ExtractionResult)
    (meta_data_ : list (string * string)) : command :=
  let tables_ :=
    map (fun table =>
           {| table_id := id_ table; table_title := title table;
              table_frame := data_frame table;
              table_description := description table;
              table_visualizations := visualizations table |}) data in
  let meta_frame :=
    {| columns := ["type"; "message"];
       rows := map (fun '(type_, message) => [CStr type_; CStr message])
                   meta_data_ |} in
  let meta_table :=
    {| table_id := "log_messages";
       table_title := [("en", "Log messages"); ("nl", "Log berichten")];
       table_frame := meta_frame;
       table_description := None;
       table_visualizations := None |} in
  render_donation_page platform
    (PropsUIPromptConsentForm tables_ [meta_table]
       (Some [("en", "Decide whether you would like to donate the data below. Carefully check the data and adjust as required. Your donation will contibute to the reasearch project that was explained at the start of the project. Thank you in advance.
                    If you DO NOT want to donate any of the information in the table below, you can select the row and delete it from your data donation in the table below")]))
    progress.

(** [retry_result.__type__ == "PayloadTrue"] *)
Definition is_PayloadTrue (retry_result : payload) : bool :=
  match retry_result with PayloadTrue => true | _ => false end.

(** [process]: the [while True] loop, run on the responses sent into
    the coroutine.  Each turn starts with the file prompt. *)
Fixpoint process (responses : list payload)
    (meta_data_ : list (string * string)) : run :=
  yield_then file_prompt
    match responses with
    | [] => stop Suspended meta_data_
    | PayloadString value :: responses1 =>
        let meta_data_ := log meta_data_ "extracting file" in
        match extractor_ value with
        | Raise e =>
            if is_IOError e then
              let meta_data_ :=
                log meta_data_ "prompt confirmation to retry file selection" in
              yield_then retry_prompt
                match responses1 with
                | [] => stop Suspended meta_data_
                | _ :: _ => stop Returned meta_data_
                end
            else if is_InvalidFileError e then
              let meta_data_ :=
                log meta_data_ "invalid file detected, prompting for retry" in
              yield_then retry_prompt
                match responses1 with
                | [] => stop Suspended meta_data_
                | retry_result :: responses2 =>
                    if is_PayloadTrue retry_result
                    then process responses2 meta_data_
                    else stop Returned meta_data_
                end
            else stop (Raised e) meta_data_
        | Ok None =>
            yield_then retry_prompt
              match responses1 with
              | [] => stop Suspended meta_data_
              | try_again :: responses2 =>
                  if is_PayloadTrue try_again
                  then process responses2 meta_data_
                  else stop Returned meta_data_
              end
        | Ok (Some extraction_result) =>
            let meta_data_ :=
              log meta_data_ "extraction successful, go to consent form" in
            let consent := consent_prompt extraction_result meta_data_ in
            let meta_data_ := log meta_data_ "prompt consent" in
            yield_then consent
              match responses1 with
              | [] => stop Suspended meta_data_
              | PayloadJSON value :: responses2 =>
                  let meta_data_ := log meta_data_ "donate consent data" in
                  yield_then
                    (donate (session_id +:+ "-" +:+ platform) value)
                    match responses2 with
                    | [] => stop Suspended meta_data_
                    | _ :: responses3 => process responses3 meta_data_
                    end
              | _ :: responses2 => process responses2 meta_data_
              end
        end
    | _ :: _ => stop Returned (log meta_data_ "skip to next step")
    end.

End DataDonationProcessor.

(** [tik_tok_data_donation], over the files [fs] that the paths name. *)
Definition tik_tok_data_donation (fs : string -> file) (session_id : string)
    (responses : list payload) : run :=
  process "TikTok" "application/zip, text/plain, application/json"
          (fun path => extract_tiktok_data (fs path)) session_id responses [].

(** The text in double quotes. *)
Definition quoted (text : string) : string :=
  String "034"%char (text +:+ String "034"%char "").

(** The JSON text donated under the tracking key when the script starts. *)
Definition tracking_message : string :=
  "[{ " +:+ quoted "message" +:+ ": " +:+ quoted "user entered script" +:+ " }]".

(** The entry point [process(session_id)] of the script: the tracking
    donation, then the TikTok flow on the responses that follow. *)
Module Script.

Definition process (fs : string -> file) (session_id : string)
    (responses : list payload) : run :=
  yield_then (donate (session_id +:+ "-tracking") tracking_message)
    match responses with
    | [] => stop Suspended []
    | _ :: responses' => tik_tok_data_donation fs session_id responses'
    end.

End Script.


(** ** Notions used to state the properties *)

(** The closed interval that [get_date_filtered_items] keeps. *)
Definition in_window (t : datetime) : Prop :=
  filter_start <= t /\ t <= filter_end.

Definition in_window_item (item : json) : bool :=
  match item_timestamp item with
  | Ok t => bool_decide (in_window t)
  | Raise _ => false
  end.

(** What the generator keeps of one item. *)
Definition kept (item : json) : option (datetime * json) :=
  match item_timestamp item with
  | Ok t => if outside_window t then None else Some (t, item)
  | Raise _ => None
  end.

(** The number of items whose parsed instant lies in the window. *)
Definition window_count (items : list json) : Z :=
  Z.of_nat (length (filter (fun item => Is_true (in_window_item item)) items)).

(** The time-filtered counts of the summary, with their sections. *)
Definition summary_sections : list (string * list string) := [
  ("Followers", ["Activity"; "Follower List"; "FansList"]);
  ("Following", ["Activity"; "Following List"; "Following"]);
  ("Videos posted", ["Video"; "Videos"; "VideoList"]);
  ("Likes given", ["Activity"; "Like List"; "ItemFavoriteList"]);
  ("Comments posted", ["Comment"; "Comments"; "CommentsList"]);
  ("Videos watched", ["Activity"; "Video Browsing History"; "VideoList"])
].

(** Every two neighbours of [l] are related by [R]. *)
Definition adjacent {A} (R : A -> A -> Prop) (l : list A) : Prop :=
  forall i a b, l !! i = Some a -> l !! S i = Some b -> R a b.

(** The session that a run of instants gives: first, last, and the time
    between them. *)
Definition session_of (group : list datetime) : option session :=
  match group with
  | [] => None
  | t :: _ => let e := List.last group t in Some (t, e, e - t)
  end.

(** The runs of the instants [t :: rest]: a new run starts at each
    instant that comes more than five minutes after the one before it. *)
Fixpoint split_runs (t : datetime) (rest : list datetime)
    : list (list datetime) :=
  match rest with
  | [] => [[t]]
  | c :: rest' =>
      if five_minutes <? c - t then [t] :: split_runs c rest'
      else match split_runs c rest' with
           | g :: gs => (t :: g) :: gs
           | [] => [[t]]
           end
  end.

(** The loop of [get_sessions] followed by its last [append]. *)
Definition finish_sessions (st : list session * datetime * datetime)
    : list session :=
  let '(sessions, start, end_) := st in
  sessions ++ [(start, end_, end_ - start)].

(** The dictionary key of the sender of a message. *)
Definition sender_key (item : json) : res pykey :=
  from ← subscript item "From"; to_key from.

(** The ids that successive lookups [anon_ids[k]] return. *)
Fixpoint anon_ids_run (st : anon_state) (keys : list pykey) : list Z :=
  match keys with
  | [] => []
  | k :: keys' =>
      let '(anon_id, st') := anon_ids_get st k in
      anon_id :: anon_ids_run st' keys'
  end.

(** The distinct keys in the order in which they are first seen, after
    those already [seen]. *)
Fixpoint first_seen (seen keys : list pykey) : list pykey :=
  match keys with
  | [] => seen
  | k :: keys' =>
      if decide (k ∈ seen) then first_seen seen keys'
      else first_seen (seen ++ [k]) keys'
  end.

(** The dictionary holds, for the keys seen so far in first-seen order,
    their position plus one, and the counter is one past the last id. *)
Definition anon_inv (seen : list pykey) (st : anon_state) : Prop :=
  NoDup seen
  /\ st.2 = Z.of_nat (length seen) + 1
  /\ forall k v, st.1 !! k = Some v <->
                 exists p, seen !! p = Some k /\ v = Z.of_nat p + 1.

(** The messages of the chat history of a document, threads chained. *)
Definition chat_messages (data : json) : res (gen json) :=
  history ← get_in data ["Direct Messages"; "Chat History"; "ChatHistory"];
  flatten_chat_history history.

(** ** Example documents *)

Definition profile (user : json) : string * json :=
  ("Profile",
   JObj [("Profile Information",
          JObj [("ProfileMap",
                 JObj [("userName", user); ("likesReceived", JStr "12")])])]).

Definition dated (date : string) : json :=
  JObj [("Date", JStr date); ("Link", JStr "https://www.tiktokv.com/share/video/1/")].

Definition message (from date : string) : json :=
  JObj [("Date", JStr date); ("From", JStr from); ("Content", JStr "hello")].

Definition video (date : string) (likes : json) : json :=
  JObj [("Date", JStr date); ("Likes", likes)].

Definition browsing (items : list json) : string * json :=
  ("Activity", JObj [("Video Browsing History", JObj [("VideoList", JArr items)])]).

Definition chats (threads : list (string * json)) : string * json :=
  ("Direct Messages", JObj [("Chat History", JObj [("ChatHistory", JObj threads)])]).

(** A document whose every section has data. *)
Definition full_document : json := JObj [
  profile (JStr "me");
  ("Activity",
   JObj [("Video Browsing History",
          JObj [("VideoList", JArr [dated "2022-06-01 12:00:00";
                                    dated "2022-06-01 12:03:00"])]);
         ("Like List",
          JObj [("ItemFavoriteList", JArr [dated "2022-06-01 12:10:00"])])]);
  ("Video",
   JObj [("Videos",
          JObj [("VideoList", JArr [video "2022-06-01 15:00:01" (JStr "3")])])]);
  ("Comment",
   JObj [("Comments",
          JObj [("CommentsList", JArr [dated "2022-06-01 12:06:00"])])]);
  chats [("Chat History with friend:",
          JArr [message "friend" "2022-06-01 12:06:00";
                message "me" "2022-06-01 12:07:00"])]
].

(** A file that holds one JSON document and is not a zip archive. *)
Definition json_file_of (data : json) : file :=
  {| file_open := None; file_load := Ok data; file_zip := Raise BadZipFile |}.

(** A path that cannot be opened. *)
Definition unreadable_file : file :=
  {| file_open := Some IOError; file_load := Raise IOError;
     file_zip := Raise IOError |}.

(** Two items at the end of the window: on it and one second later. *)
Definition boundary_items : list json :=
  [dated "2025-01-01 00:00:00"; dated "2025-01-01 00:00:01"].

(** A document whose only activity is one video watched at the very end
    of the window. *)
Definition boundary_document : json := JObj [
  profile (JStr "me");
  browsing [dated "2025-01-01 00:00:00"];
  chats []
].

(** A document with a video watched and a message received before the
    window starts. *)
Definition early_document : json := JObj [
  profile (JStr "me");
  browsing [dated "2020-06-01 12:00:00"];
  chats [("Chat History with friend:", JArr [message "friend" "2019-03-05 08:30:00"])]
].

(** A validated document without the "Direct Messages" section. *)
Definition no_chat_document : json := JObj [profile (JStr "me")].

(** A validated document with a video watched in the window and without
    the "Direct Messages" section. *)
Definition watched_document : json := JObj [
  profile (JStr "me");
  browsing [dated "2022-06-01 12:00:00"]
].

(** A validated document whose chat history has no entries. *)
Definition empty_chat_document : json := JObj [profile (JStr "me"); chats []].

(** A document with the given posted videos. *)
Definition posts_document (videos : list json) : json := JObj [
  profile (JStr "me");
  ("Video", JObj [("Videos", JObj [("VideoList", JArr videos)])])
].

(** A JSON file that is no export: it parses, and has no user name. *)
Definition foreign_json_file : file := json_file_of (JObj [("hello", JStr "world")]).

(** The same text, in a file that would also open as an archive holding
    a valid export. *)
Definition foreign_json_with_archive : file :=
  {| file_open := None;
     file_load := Ok (JObj [("hello", JStr "world")]);
     file_zip := Ok [{| entry_name := "user_data.json"; entry_open := None;
                        entry_load := Ok full_document |}] |}.

(** A text that is neither JSON nor a zip archive. *)
Definition garbage_file : file :=
  {| file_open := None; file_load := Raise JSONDecodeError;
     file_zip := Raise BadZipFile |}.

(** A file system for the examples. *)
Definition example_fs (path : string) : file :=
  if String.eqb path "export.json" then json_file_of full_document
  else if String.eqb path "foreign.json" then foreign_json_file
  else if String.eqb path "garbage.txt" then garbage_file
  else unreadable_file.

(** The ids of the tables in the order of the extractor table of the
    specification, and in the order of [extractors]. *)
Definition specified_order : list string := [
  "tiktok_summary"; "tiktok_videos_viewed"; "tiktok_posts";
  "tiktok_comments_and_likes"; "tiktok_session_info"; "tiktok_direct_messages"
].

Definition extractors_order : list string := [
  "tiktok_summary"; "tiktok_posts"; "tiktok_comments_and_likes";
  "tiktok_videos_viewed"; "tiktok_session_info"; "tiktok_direct_messages"
].

(** ** Further notions used to state the properties *)

(** A document that passes the check of [load_tiktok_data]. *)
Definition validated (data : json) : Prop :=
  exists user_name, get_user_name data = Ok user_name /\ truthy user_name = true.

(** The entries that the zip scan looks at. *)
Definition is_json_entry (entry : zip_entry) : bool :=
  endswith (entry_name entry) ".json".

(** An entry that the scan passes over: its name does not end in
    [.json], or it opens and loading it ends in an exception that
    [suppress(IOError, json.JSONDecodeError)] swallows. *)
Definition skipped_entry (entry : zip_entry) : Prop :=
  is_json_entry entry = true ->
  entry_open entry = None
  /\ exists e, load_tiktok_data (entry_load entry) = Raise e
               /\ is_suppressed_in_zip e = true.

(** The number of instants that [key_func] sends to the key [k]. *)
Definition count_key (key_func : datetime -> Z) (timestamps : list datetime)
    (k : Z) : Z :=
  Z.of_nat (length (filter (fun t => key_func t = k) timestamps)).

(** [meta_data'] is [meta_data_] followed by debug entries of the
    platform, as [log] appends them. *)
Definition logged (platform : string) (meta_data_ meta_data' : list (string * string))
    : Prop :=
  exists new,
    meta_data' = meta_data_ ++ new
    /\ Forall (fun entry : string * string =>
                 entry.1 = "debug"
                 /\ exists message, entry.2 = platform +:+ ": " +:+ message) new.

(** The order of the [(key, count)] tuples is a total preorder. *)
#[global] Instance pair_le_trans : Transitive pair_le.
Proof. intros [a1 a2] [b1 b2] [c1 c2]. unfold pair_le. cbn. intros H1 H2. lia. Qed.

#[global] Instance pair_le_total : Total pair_le.
Proof. intros [a1 a2] [b1 b2]. unfold pair_le. cbn. lia. Qed.

(** The sum of a list of numbers. *)
Definition total (l : list Z) : Z := foldr Z.add 0 l.

(** What the loop of [extract_video_posts] keeps true of [post_stats]
    after the videos posted at the instants [seen]: each hour is listed
    once, the hour of every video is listed, the numbers of videos add
    up to the number of videos seen, and an hour has the number of
    videos seen in it. *)
Definition post_stats_inv (seen : list datetime)
    (post_stats : list (datetime * (Z * Z))) : Prop :=
  NoDup (map fst post_stats)
  /\ (forall t, t ∈ seen -> hourly_key t ∈ map fst post_stats)
  /\ total (map (fun entry : datetime * (Z * Z) => entry.2.1) post_stats)
     = Z.of_nat (length seen)
  /\ forall k videos likes,
       (k, (videos, likes)) ∈ post_stats ->
       0 < videos /\ videos = count_key hourly_key seen k.

(** The test of the summary on a message: [item["From"] == user_name]. *)
Definition sent_by (user_name item : json) : bool :=
  match subscript item "From" with
  | Ok from => json_eqb from user_name
  | Raise _ => false
  end.

(** The command at position [n] of the run [r] on [responses] donates the
    answer to a consent form: two places before it the run prompts for
    a file and is answered by a path on which the extractor returns
    tables; one place before it the run shows the consent form for these
    tables and is answered by the [PayloadJSON] that holds [value]. *)
Definition consented (platform mime_types : string)
    (extractor_ : string -> res (option (list ExtractionResult)))
    (session_id : string) (responses : list payload) (r : run) (n : nat)
    (key value : string) : Prop :=
  exists i file_ tables log_,
    n = S (S i)
    /\ yielded r !! i = Some (file_prompt platform mime_types)
    /\ responses !! i = Some (PayloadString file_)
    /\ extractor_ file_ = Ok (Some tables)
    /\ yielded r !! S i = Some (consent_prompt platform tables log_)
    /\ responses !! S i = Some (PayloadJSON value)
    /\ key = session_id +:+ "-" +:+ platform.

(** ** Further example data *)

(** An archive with a text file, a JSON file that is no export, the
    export, and an entry after it that cannot be opened. *)
Definition example_archive_skipped : list zip_entry := [
  {| entry_name := "readme.txt"; entry_open := None;
     entry_load := Raise JSONDecodeError |};
  {| entry_name := "settings.json"; entry_open := None;
     entry_load := Ok (JObj [("hello", JStr "world")]) |}
].

Definition example_export_entry : zip_entry :=
  {| entry_name := "user_data.json"; entry_open := None;
     entry_load := Ok full_document |}.

Definition example_archive : list zip_entry :=
  example_archive_skipped
  ++ example_export_entry
  :: [{| entry_name := "broken.json"; entry_open := Some BadZipFile;
         entry_load := Raise BadZipFile |}].

(** The archive as a file: its bytes are not text. *)
Definition zipped_export : file :=
  {| file_open := None; file_load := Raise UnicodeDecodeError;
     file_zip := Ok example_archive |}.

(** An item without a Date. *)
Definition undated : json := JObj [("Link", JStr "https://www.tiktokv.com/share/video/2/")].

(** An archive without any export in it, and a file system that holds
    nothing else. *)
Definition empty_archive_file : file :=
  {| file_open := None; file_load := Raise UnicodeDecodeError;
     file_zip := Ok example_archive_skipped |}.

Definition empty_archive_fs (path : string) : file := empty_archive_file.

(** A document with two messages received and one sent in the window,
    and one sent before the window starts. *)
Definition messages_document : json := JObj [
  profile (JStr "me");
  chats [("Chat History with friend:",
          JArr [message "friend" "2022-06-01 12:06:00";
                message "me" "2022-06-01 12:07:00";
                message "friend" "2022-06-01 12:09:00"]);
         ("Chat History with other:",
          JArr [message "me" "2020-02-02 10:00:00"])]
].

(** A file system whose files all hold an export with a video whose
    Likes is the text "None". *)
Definition likes_none_fs (path : string) : file :=
  json_file_of (posts_document [video "2022-06-01 15:00:01" (JStr "None")]).

(** * Properties *)

(** ** The window filter *)

Lemma outside_window_spec t : outside_window t = false <-> in_window t.
Proof.
  unfold outside_window, in_window.
  rewrite orb_false_iff, !Z.ltb_ge. tauto.
Qed.

Lemma in_window_item_spec item :
  in_window_item item <-> exists t, item_timestamp item = Ok t /\ in_window t.
Proof.
  unfold in_window_item. destruct (item_timestamp item) as [t|e].
  - rewrite bool_decide_spec. split; [eauto|]. by intros (? & [= <-] & ?).
  - split; [done|]. by intros (? & ? & ?).
Qed.

Lemma date_filtered_from_all_parse items tail :
  Forall (fun item => exists t, item_timestamp item = Ok t) items ->
  date_filtered_from items tail = (omap kept items, tail).
Proof.
  induction 1 as [|item items [t Ht] _ IH]; [done|].
  cbn. unfold kept at 1. rewrite Ht, IH.
  by destruct (outside_window t).
Qed.

Lemma date_filtered_from_no_exception items tail out :
  date_filtered_from items tail = (out, None) ->
  tail = None /\ Forall (fun item => exists t, item_timestamp item = Ok t) items.
Proof.
  revert out. induction items as [|item items IH]; cbn; intros out H.
  - by inversion H.
  - destruct (item_timestamp item) as [t|e] eqn:Ht; [|done].
    destruct (outside_window t).
    + destruct (IH _ H). eauto.
    + destruct (date_filtered_from items tail) as [out' t'] eqn:E.
      inversion H; subst. destruct (IH _ eq_refl). eauto.
Qed.

Lemma elem_of_omap_kept (items : list json) t item :
  (t, item) ∈ omap kept items <->
  item ∈ items /\ item_timestamp item = Ok t /\ in_window t.
Proof.
  rewrite list_elem_of_omap. unfold kept. split.
  - intros (x & Hx & H). destruct (item_timestamp x) as [t'|] eqn:Ht; [|done].
    destruct (outside_window t') eqn:Ho; [done|].
    inversion H; subst. by rewrite <- outside_window_spec.
  - intros (Hin & Ht & Hw). exists item. split; [done|].
    rewrite Ht. apply outside_window_spec in Hw. by rewrite Hw.
Qed.

Lemma length_omap_kept (items : list json) :
  Forall (fun item => exists t, item_timestamp item = Ok t) items ->
  Z.of_nat (length (omap kept items)) = window_count items.
Proof.
  unfold window_count. intros H. f_equal.
  induction H as [|item items [t Ht] _ IH]; [done|].
  change (omap kept (item :: items))
    with (match kept item with
          | Some y => y :: omap kept items
          | None => omap kept items
          end).
  unfold kept at 1. rewrite Ht.
  destruct (outside_window t) eqn:Ho.
  - rewrite filter_cons_False; [done|].
    rewrite in_window_item_spec. intros (t' & Ht' & Hw).
    apply outside_window_spec in Hw. congruence.
  - rewrite filter_cons_True; [cbn; by rewrite IH|].
    apply in_window_item_spec. exists t. by rewrite <- outside_window_spec.
Qed.

Lemma filtered_count_spec data key_path n :
  filtered_count data key_path = Ok n ->
  exists section, get_list data key_path = Ok section
                  /\ n = window_count (iterate section).1.
Proof.
  unfold filtered_count. destruct (get_list data key_path) as [section|]; [|done].
  cbn. unfold get_date_filtered_items.
  destruct (date_filtered_from _ _) as [out [e|]] eqn:E; [done|].
  cbn. intros [= <-]. exists section. split; [done|].
  apply date_filtered_from_no_exception in E as E'. destruct E' as [_ Hall].
  rewrite (date_filtered_from_all_parse _ _ Hall) in E. inversion E; subst.
  by apply length_omap_kept.
Qed.


Lemma bind_Ok {A B} (k : A -> res B) (r : res A) b :
  mbind k r = Ok b -> exists a, r = Ok a /\ k a = Ok b.
Proof. destruct r as [a|e]; [eauto | discriminate]. Qed.

(** Splits a hypothesis [x ← r; k = Ok b] into [r = Ok a] and [k a = Ok b]. *)
Ltac bind_inv H a Ha :=
  apply bind_Ok in H as (a & Ha & H); cbv beta in H.

Lemma sublist_omap_kept (items : list json) :
  sublist (map snd (omap kept items)) items.
Proof.
  induction items as [|item items IH]; [constructor|].
  change (omap kept (item :: items))
    with (match kept item with
          | Some y => y :: omap kept items
          | None => omap kept items
          end).
  unfold kept at 1. destruct (item_timestamp item) as [t|]; [|by constructor].
  destruct (outside_window t); by constructor.
Qed.

(** C8 (counterexample): an item dated exactly 2025-01-01 00:00:00 is
    yielded by the window filter, although its instant is not before the
    end of the window; the item one second later is dropped. *)
Lemma window_end_is_kept :
  item_timestamp (dated "2025-01-01 00:00:00") = Ok (mk_datetime 2025 1 1 0 0 0)
  /\ get_date_filtered_items (iterate (JArr boundary_items))
     = ([(filter_end, dated "2025-01-01 00:00:00")], None)
  /\ ~ filter_end < filter_end.
Proof. split; [|split]; [reflexivity | reflexivity | lia]. Qed.

(** C8 (amended): when every item has a well-formed Date, the window
    filter ends normally and yields, in the order of the source, exactly
    the items whose parsed instant t satisfies
    2021-01-01 00:00:00 <= t <= 2025-01-01 00:00:00: the window is closed
    at both ends. *)
Theorem window_filter_closed_interval (items : list json) :
  Forall (fun item => exists t, item_timestamp item = Ok t) items ->
  (get_date_filtered_items (items, None)).2 = None
  /\ sublist (map snd (get_date_filtered_items (items, None)).1) items
  /\ forall t item,
       (t, item) ∈ (get_date_filtered_items (items, None)).1 <->
       item ∈ items /\ item_timestamp item = Ok t
       /\ filter_start <= t /\ t <= filter_end.
Proof.
  intros Hall. unfold get_date_filtered_items. cbn [fst snd].
  rewrite (date_filtered_from_all_parse _ _ Hall). cbn [fst snd].
  split; [done|]. split; [apply sublist_omap_kept|].
  intros t item. apply elem_of_omap_kept.
Qed.

Lemma window_filter_closed_interval_witness :
  Forall (fun item => exists t, item_timestamp item = Ok t) boundary_items
  /\ (get_date_filtered_items (boundary_items, None)).2 = None
  /\ sublist (map snd (get_date_filtered_items (boundary_items, None)).1)
             boundary_items
  /\ forall t item,
       (t, item) ∈ (get_date_filtered_items (boundary_items, None)).1 <->
       item ∈ boundary_items /\ item_timestamp item = Ok t
       /\ filter_start <= t /\ t <= filter_end.
Proof.
  assert (H : Forall (fun item => exists t, item_timestamp item = Ok t)
                     boundary_items).
  { repeat constructor; eexists; reflexivity. }
  split; [exact H | exact (window_filter_closed_interval boundary_items H)].
Defined.

(** A video watched at 2025-01-01 00:00:00, the very end of the window,
    is counted by the summary's time-filtered "Videos watched". *)
Example summary_counts_window_end :
  item_timestamp (dated "2025-01-01 00:00:00") = Ok filter_end
  /\ ~ filter_end < filter_end
  /\ filtered_count boundary_document
       ["Activity"; "Video Browsing History"; "VideoList"] = Ok 1
  /\ exists er, extract_summary_data boundary_document = Ok (Some er)
                /\ [CStr "Videos watched"; CInt 1] ∈ rows (data_frame er).
Proof.
  split; [reflexivity|]. split; [lia|]. split; [reflexivity|].
  eexists. split; [reflexivity|]. cbn [rows data_frame]. set_solver.
Qed.

(** X29: Whenever the Summary extractor returns, each of its
    time-filtered counts (followers, following, videos posted, likes
    given, comments posted, videos watched) equals the number of items of
    its source section whose parsed instant lies in the closed window
    2021-01-01 00:00:00 <= t <= 2025-01-01 00:00:00. *)
Theorem summary_counts_closed_window data er :
  extract_summary_data data = Ok (Some er) ->
  forall label key_path, (label, key_path) ∈ summary_sections ->
    exists section,
      get_list data key_path = Ok section
      /\ [CStr label; CInt (window_count (iterate section).1)]
         ∈ rows (data_frame er).
Proof.
  intros H. unfold extract_summary_data in H.
  bind_inv H user_name Hu. bind_inv H chat_history Hc.
  bind_inv H flattened Hf. bind_inv H dms Hd.
  bind_inv H sent Hs. bind_inv H received Hr.
  bind_inv H n1 H1. bind_inv H n2 H2. bind_inv H likes Hl.
  bind_inv H n3 H3. bind_inv H n4 H4. bind_inv H n5 H5. bind_inv H n6 H6.
  inversion H; subst; clear H. cbn [rows data_frame].
  apply filtered_count_spec in H1 as (s1 & ? & ->), H2 as (s2 & ? & ->),
    H3 as (s3 & ? & ->), H4 as (s4 & ? & ->), H5 as (s5 & ? & ->),
    H6 as (s6 & ? & ->).
  intros label key_path Hin. unfold summary_sections in Hin.
  repeat (apply elem_of_cons in Hin as [[= -> ->]|Hin];
          [eexists; split; [eassumption|]; set_solver|]).
  by apply elem_of_nil in Hin.
Qed.

Lemma summary_counts_closed_window_witness :
  exists er,
    extract_summary_data full_document = Ok (Some er)
    /\ forall label key_path, (label, key_path) ∈ summary_sections ->
         exists section,
           get_list full_document key_path = Ok section
           /\ [CStr label; CInt (window_count (iterate section).1)]
              ∈ rows (data_frame er).
Proof.
  eexists. split; [reflexivity|].
  apply (summary_counts_closed_window full_document). reflexivity.
Defined.


(** ** Sessions *)

Lemma adjacent_nil {A} (R : A -> A -> Prop) : adjacent R [].
Proof. intros i a b H. by destruct i. Qed.

Lemma adjacent_singleton {A} (R : A -> A -> Prop) x : adjacent R [x].
Proof. intros i a b Ha Hb. by destruct i. Qed.

Lemma adjacent_cons {A} (R : A -> A -> Prop) x y l :
  adjacent R (x :: y :: l) <-> R x y /\ adjacent R (y :: l).
Proof.
  split.
  - intros H. split; [by apply (H 0%nat)|].
    intros i a b Ha Hb. by apply (H (S i)).
  - intros [Hxy H] [|i] a b Ha Hb.
    + cbn in Ha, Hb. congruence.
    + by apply (H i).
Qed.

Lemma split_runs_head t rest :
  exists g gs, split_runs t rest = (t :: g) :: gs.
Proof.
  destruct rest as [|c rest]; cbn; [by eexists _, _|].
  destruct (five_minutes <? c - t); [by eexists _, _|].
  destruct (split_runs c rest); by eexists _, _.
Qed.

Lemma split_runs_concat t rest : concat (split_runs t rest) = t :: rest.
Proof.
  revert t. induction rest as [|c rest IH]; intros t; cbn; [done|].
  destruct (five_minutes <? c - t); cbn; [by rewrite IH|].
  specialize (IH c). destruct (split_runs_head c rest) as (g & gs & E).
  rewrite E in *. cbn in *. by rewrite IH.
Qed.

Lemma split_runs_nonempty t rest : Forall (fun g => g <> []) (split_runs t rest).
Proof.
  revert t. induction rest as [|c rest IH]; intros t; cbn.
  - by repeat constructor.
  - specialize (IH c). destruct (five_minutes <? c - t); [by constructor|].
    destruct (split_runs c rest); [by repeat constructor|].
    inversion IH; subst. by constructor.
Qed.

Lemma split_runs_within t rest :
  Forall (adjacent (fun a b => b - a <= five_minutes)) (split_runs t rest).
Proof.
  revert t. induction rest as [|c rest IH]; intros t; cbn.
  - repeat constructor. apply adjacent_singleton.
  - specialize (IH c). destruct (Z.ltb_spec five_minutes (c - t)).
    + constructor; [apply adjacent_singleton | done].
    + destruct (split_runs_head c rest) as (g & gs & E). rewrite E in *.
      inversion IH; subst. constructor; [|done].
      by apply adjacent_cons.
Qed.

Lemma split_runs_between t rest :
  adjacent (fun g1 g2 => exists a b, last g1 = Some a /\ head g2 = Some b
                                     /\ five_minutes < b - a)
           (split_runs t rest).
Proof.
  revert t. induction rest as [|c rest IH]; intros t; cbn.
  - apply adjacent_singleton.
  - specialize (IH c). destruct (split_runs_head c rest) as (g & gs & E).
    rewrite E in *. destruct (Z.ltb_spec five_minutes (c - t)).
    + apply adjacent_cons. split; [|done]. by exists t, c.
    + destruct gs as [|g2 gs]; [apply adjacent_singleton|].
      apply adjacent_cons in IH as [(a & b & Ha & Hb & Hab) IH].
      apply adjacent_cons. split; [|done]. exists a, b.
      split; [|done]. by rewrite last_cons, Ha.
Qed.

Lemma last_cons_default (c : datetime) g d d' :
  List.last (c :: g) d = List.last (c :: g) d'.
Proof.
  revert c. induction g as [|x g IH]; intros c; [done|]. apply (IH x).
Qed.

Lemma last_cons_cons (t c : datetime) g d :
  List.last (t :: c :: g) d = List.last (c :: g) c.
Proof.
  change (List.last (t :: c :: g) d) with (List.last (c :: g) d).
  apply last_cons_default.
Qed.

Lemma session_of_cons t c g :
  session_of (t :: c :: g)
  = Some (t, List.last (c :: g) c, List.last (c :: g) c - t).
Proof. unfold session_of. cbv zeta. by rewrite last_cons_cons. Qed.

Lemma sessions_loop (l : list datetime) : forall p acc start,
  finish_sessions (fold_left sessions_step (zip (p :: l) l) (acc, start, p))
  = acc ++ match split_runs p l with
           | g :: gs => (start, List.last g p, List.last g p - start)
                        :: omap session_of gs
           | [] => []
           end.
Proof.
  induction l as [|c l IH]; intros p acc start; [done|].
  change (zip (p :: c :: l) (c :: l)) with ((p, c) :: zip (c :: l) l).
  cbn [fold_left sessions_step split_runs].
  destruct (split_runs_head c l) as (g & gs & E).
  destruct (five_minutes <? c - p).
  - rewrite IH, E. rewrite <- app_assoc. cbn [app omap list_omap].
    destruct g as [|x g]; [cbn; by rewrite Z.sub_diag|].
    by rewrite session_of_cons, !last_cons_cons.
  - rewrite IH, E. by rewrite !last_cons_cons.
Qed.

Lemma get_sessions_runs timestamps :
  get_sessions timestamps
  = match merge_sort Z.le timestamps with
    | [] => []
    | t0 :: rest => omap session_of (split_runs t0 rest)
    end.
Proof.
  unfold get_sessions. destruct (merge_sort Z.le timestamps) as [|t0 rest]; [done|].
  destruct rest as [|t1 rest]; [cbn; by rewrite Z.sub_diag|].
  pose proof (sessions_loop (t1 :: rest) t0 [] t0) as H.
  destruct (fold_left _ _ _) as [[sessions start] end_].
  cbn [finish_sessions] in H. rewrite H. cbn [app].
  destruct (split_runs_head t0 (t1 :: rest)) as (g & gs & E). rewrite E.
  cbn [omap list_omap]. destruct g as [|x g].
  - unfold session_of. cbn. by rewrite Z.sub_diag.
  - by rewrite session_of_cons, last_cons_cons.
Qed.

Lemma omap_session_of_Forall2 groups :
  Forall (fun g => g <> []) groups ->
  Forall2 (fun g s => session_of g = Some s) groups (omap session_of groups).
Proof.
  induction 1 as [|g groups Hg _ IH]; [constructor|].
  destruct g as [|t g]; [done|]. cbn. by constructor.
Qed.

Lemma merge_sort_perm_eq (l1 l2 : list Z) :
  l1 ≡ₚ l2 -> merge_sort Z.le l1 = merge_sort Z.le l2.
Proof.
  intros H. apply (StronglySorted_unique Z.le).
  - apply StronglySorted_merge_sort; apply _.
  - apply StronglySorted_merge_sort; apply _.
  - by rewrite !merge_sort_Permutation.
Qed.

(** C5: [get_sessions] sorts the instants ascending and cuts the sorted
    list into consecutive runs, one session (start, end, duration) per run
    in chronological order; inside a run neighbours are at most five
    minutes apart, between one run and the next there are more than five
    minutes; no instant gives no session, one instant gives one session of
    duration zero, and the result does not depend on the order of the
    input. *)
Theorem get_sessions_partition (timestamps : list datetime) :
  (exists groups : list (list datetime),
      concat groups = merge_sort Z.le timestamps
      /\ Sorted Z.le (concat groups)
      /\ concat groups ≡ₚ timestamps
      /\ Forall2 (fun g s => session_of g = Some s)
                 groups (get_sessions timestamps)
      /\ Forall (adjacent (fun a b => b - a <= five_minutes)) groups
      /\ adjacent (fun g1 g2 => exists a b,
                      last g1 = Some a /\ head g2 = Some b
                      /\ five_minutes < b - a) groups)
  /\ get_sessions [] = []
  /\ (forall t, get_sessions [t] = [(t, t, 0)])
  /\ (forall timestamps', timestamps ≡ₚ timestamps' ->
        get_sessions timestamps = get_sessions timestamps').
Proof.
  split; [|split; [done|split; [done|]]].
  - rewrite get_sessions_runs.
    pose proof (Sorted_merge_sort Z.le timestamps) as Hs.
    pose proof (merge_sort_Permutation Z.le timestamps) as Hp.
    destruct (merge_sort Z.le timestamps) as [|t0 rest].
    + exists []. repeat split; try done; try constructor.
    + exists (split_runs t0 rest). rewrite split_runs_concat.
      repeat split; try done.
      * apply omap_session_of_Forall2, split_runs_nonempty.
      * apply split_runs_within.
      * apply split_runs_between.
  - intros ts' H. by rewrite !get_sessions_runs, (merge_sort_perm_eq _ _ H).
Qed.


Lemma get_sessions_partition_witness :
  [1654084980; 1654084800; 1654090000] ≡ₚ [1654084800; 1654084980; 1654090000]
  /\ get_sessions [1654084980; 1654084800; 1654090000]
     = get_sessions [1654084800; 1654084980; 1654090000].
Proof.
  assert (H : [1654084980; 1654084800; 1654090000]
              ≡ₚ [1654084800; 1654084980; 1654090000]) by apply perm_swap.
  split; [exact H|].
  exact (proj2 (proj2 (proj2
           (get_sessions_partition [1654084980; 1654084800; 1654090000]))) _ H).
Defined.

(** ** Anonymous identifiers *)

Lemma anon_inv_init own : anon_inv [own] (anon_ids_get (∅, 1) own).2.
Proof.
  unfold anon_ids_get. cbn [fst snd]. rewrite lookup_empty. cbn [fst snd].
  split; [apply NoDup_singleton|]. split; [done|].
  intros k v. cbn [fst snd]. rewrite lookup_insert. split.
  - case_decide as E; [|by rewrite lookup_empty].
    intros [= <-]. exists 0%nat. by subst.
  - intros ([|p] & Hp & ->); cbn in Hp; [|by destruct p].
    inversion Hp; subst. by rewrite decide_True.
Qed.

Lemma anon_ids_get_seen seen st k :
  anon_inv seen st -> k ∈ seen ->
  exists p, seen !! p = Some k
            /\ anon_ids_get st k = (Z.of_nat p + 1, st).
Proof.
  intros (Hnd & Hn & Hm) Hin. apply list_elem_of_lookup in Hin as [p Hp].
  exists p. split; [done|]. unfold anon_ids_get.
  assert (st.1 !! k = Some (Z.of_nat p + 1)) as -> by (apply Hm; eauto).
  done.
Qed.

Lemma anon_ids_get_new seen st k :
  anon_inv seen st -> k ∉ seen ->
  exists st', anon_ids_get st k = (Z.of_nat (length seen) + 1, st')
              /\ anon_inv (seen ++ [k]) st'.
Proof.
  intros (Hnd & Hn & Hm) Hnin. unfold anon_ids_get.
  destruct (st.1 !! k) as [v|] eqn:E.
  { apply Hm in E as (p & Hp & _). destruct Hnin.
    apply list_elem_of_lookup. eauto. }
  rewrite Hn. eexists. split; [done|]. split; [|split].
  - apply NoDup_app. split; [done|]. split; [|apply NoDup_singleton].
    intros x Hx ->%list_elem_of_singleton. done.
  - cbn. rewrite length_app. cbn. lia.
  - cbn. intros k' v. rewrite lookup_insert. case_decide as Ek.
    + subst k'. split.
      * intros [= <-]. exists (length seen).
        split; [|done]. by rewrite lookup_app_r, Nat.sub_diag by lia.
      * intros (p & Hp & ->). f_equal.
        apply lookup_app_Some in Hp as [Hp|[Hl Hp]].
        -- destruct Hnin. apply list_elem_of_lookup. eauto.
        -- destruct (p - length seen)%nat eqn:Ep; [|by destruct n].
           f_equal. lia.
    + rewrite Hm. split.
      * intros (p & Hp & ->). exists p. split; [|done].
        by apply lookup_app_l_Some.
      * intros (p & Hp & ->). exists p. split; [|done].
        apply lookup_app_Some in Hp as [Hp|[Hl Hp]]; [done|].
        destruct (p - length seen)%nat; cbn in Hp; [congruence|done].
Qed.

Lemma first_seen_prefix seen keys : seen `prefix_of` first_seen seen keys.
Proof.
  revert seen. induction keys as [|k keys IH]; intros seen; cbn; [done|].
  case_decide; [apply IH|].
  etrans; [|apply IH]. by apply prefix_app_r.
Qed.

Lemma first_seen_NoDup seen keys : NoDup seen -> NoDup (first_seen seen keys).
Proof.
  revert seen. induction keys as [|k keys IH]; intros seen Hnd; cbn; [done|].
  case_decide; [by apply IH|]. apply IH.
  apply NoDup_app. split; [done|]. split; [|apply NoDup_singleton].
  intros x Hx ->%list_elem_of_singleton. done.
Qed.

Lemma anon_ids_run_length st keys :
  length (anon_ids_run st keys) = length keys.
Proof.
  revert st. induction keys as [|k keys IH]; intros st; cbn; [done|].
  destruct (anon_ids_get st k). cbn. by rewrite IH.
Qed.

Lemma anon_ids_run_first_seen keys : forall seen st,
  anon_inv seen st ->
  forall i k, keys !! i = Some k ->
    exists p, first_seen seen keys !! p = Some k
              /\ anon_ids_run st keys !! i = Some (Z.of_nat p + 1).
Proof.
  induction keys as [|k0 keys IH]; intros seen st Hinv i k Hi; [done|].
  cbn [first_seen anon_ids_run]. case_decide as Hin.
  - destruct (anon_ids_get_seen _ _ _ Hinv Hin) as (p & Hp & ->).
    destruct i as [|i]; cbn in Hi.
    + inversion Hi; subst. exists p. split; [|done].
      by eapply prefix_lookup_Some, first_seen_prefix.
    + by apply IH.
  - destruct (anon_ids_get_new _ _ _ Hinv Hin) as (st' & -> & Hinv').
    destruct i as [|i]; cbn in Hi.
    + inversion Hi; subst. exists (length seen). split; [|done].
      eapply prefix_lookup_Some; [|apply first_seen_prefix].
      by rewrite lookup_app_r, Nat.sub_diag by lia.
    + by apply IH.
Qed.


Lemma direct_messages_loop items : forall tail st table st' table',
  for_each direct_messages_body items tail (st, table) = Ok (st', table') ->
  tail = None
  /\ exists keys new_rows,
       table' = table ++ new_rows
       /\ Forall2 (fun item k => sender_key item = Ok k) items keys
       /\ Forall2 (fun row i => exists sent, row = [CInt i; CStr sent])
                  new_rows (anon_ids_run st keys).
Proof.
  induction items as [|item items IH]; intros tail st table st' table' H.
  - cbn in H. destruct tail; [done|]. inversion H; subst.
    split; [done|]. exists [], []. rewrite app_nil_r. by repeat constructor.
  - cbn [for_each] in H. bind_inv H acc Hacc. destruct acc as [st1 table1].
    unfold direct_messages_body in Hacc.
    bind_inv Hacc from Hfrom. bind_inv Hacc k Hk.
    destruct (anon_ids_get st k) as [anon_id st2] eqn:Eget.
    bind_inv Hacc sent Hsent. inversion Hacc; subst; clear Hacc.
    apply IH in H as (-> & keys & new_rows & -> & Hkeys & Hrows).
    split; [done|]. exists (k :: keys), ([CInt anon_id; CStr (strftime_minute sent)] :: new_rows).
    split; [by rewrite <- app_assoc|]. split.
    + constructor; [|done]. unfold sender_key. by rewrite Hfrom.
    + cbn [anon_ids_run]. rewrite Eget. constructor; eauto.
Qed.

(** C4: in a run of the Direct Messages extractor that returns, the rows
    carry, message by message, the anonymous id of the sender; the
    donating user's own identifier has id 1 wherever its messages stand,
    two messages have the same id exactly when they have the same sender,
    and the id of a sender is its position among the distinct identifiers
    in first-seen order, the user's own coming first: 1, 2, 3, ... *)
Theorem direct_messages_anonymous_ids data er :
  extract_direct_messages data = Ok (Some er) ->
  exists own items keys ids,
    (user_name ← get_user_name data; to_key user_name) = Ok own
    /\ chat_messages data = Ok (items, None)
    /\ Forall2 (fun item k => sender_key item = Ok k) items keys
    /\ Forall2 (fun row i => exists sent, row = [CInt i; CStr sent])
               (rows (data_frame er)) ids
    /\ (forall i, keys !! i = Some own -> ids !! i = Some 1)
    /\ (forall i j a b x y,
          keys !! i = Some a -> keys !! j = Some b ->
          ids !! i = Some x -> ids !! j = Some y ->
          (a = b <-> x = y))
    /\ (forall i k, keys !! i = Some k ->
          exists p, first_seen [own] keys !! p = Some k
                    /\ ids !! i = Some (Z.of_nat p + 1)).
Proof.
  intros H. unfold extract_direct_messages in H.
  bind_inv H history Hh. bind_inv H user_name Hu. bind_inv H own Ho.
  bind_inv H items Hi. bind_inv H acc Hloop. destruct acc as [st' table].
  inversion H; subst; clear H. cbn [rows data_frame].
  destruct items as [items tail]. cbn [fst snd] in Hloop.
  apply direct_messages_loop in Hloop as (-> & keys & new_rows & -> & Hkeys & Hrows).
  set (st := (anon_ids_get (∅, 1) own).2) in *.
  pose proof (anon_inv_init own) as Hinv. fold st in Hinv.
  pose proof (anon_ids_run_first_seen keys [own] st Hinv) as Hrun.
  pose proof (first_seen_NoDup [own] keys (NoDup_singleton own)) as Hnd.
  exists own, items, keys, (anon_ids_run st keys).
  split; [by rewrite Hu|]. split; [unfold chat_messages; by rewrite Hh|].
  split; [done|]. split; [done|]. split; [|split; [|done]].
  - intros i Hi'. destruct (Hrun i own Hi') as (p & Hp & ->).
    assert (first_seen [own] keys !! 0%nat = Some own) as H0.
    { eapply prefix_lookup_Some; [|apply first_seen_prefix]. done. }
    by rewrite (NoDup_lookup _ _ _ _ Hnd Hp H0).
  - intros i j a b x y Ha Hb Hx Hy.
    destruct (Hrun i a Ha) as (p & Hp & Hx').
    destruct (Hrun j b Hb) as (q & Hq & Hy').
    rewrite Hx in Hx'. rewrite Hy in Hy'.
    inversion Hx'; inversion Hy'; subst. split.
    + intros <-. by rewrite (NoDup_lookup _ _ _ _ Hnd Hp Hq).
    + intros E. assert (p = q) as -> by lia. congruence.
Qed.

Lemma direct_messages_anonymous_ids_witness :
  exists er own items keys ids,
    extract_direct_messages full_document = Ok (Some er)
    /\ (user_name ← get_user_name full_document; to_key user_name) = Ok own
    /\ chat_messages full_document = Ok (items, None)
    /\ Forall2 (fun item k => sender_key item = Ok k) items keys
    /\ Forall2 (fun row i => exists sent, row = [CInt i; CStr sent])
               (rows (data_frame er)) ids
    /\ (forall i, keys !! i = Some own -> ids !! i = Some 1)
    /\ (forall i j a b x y,
          keys !! i = Some a -> keys !! j = Some b ->
          ids !! i = Some x -> ids !! j = Some y ->
          (a = b <-> x = y))
    /\ (forall i k, keys !! i = Some k ->
          exists p, first_seen [own] keys !! p = Some k
                    /\ ids !! i = Some (Z.of_nat p + 1)).
Proof.
  destruct (extract_direct_messages full_document) as [[er|]|] eqn:E;
    try discriminate E.
  destruct (direct_messages_anonymous_ids full_document er E)
    as (own & items & keys & ids & H).
  exists er, own, items, keys, ids. split; [reflexivity | exact H].
Defined.

(** The first message is from another party, and the user still has id 1. *)
Example direct_messages_other_party_first :
  exists er, extract_direct_messages full_document = Ok (Some er)
             /\ rows (data_frame er)
                = [[CInt 2; CStr "2022-06-01 12:06"];
                   [CInt 1; CStr "2022-06-01 12:07"]].
Proof. eexists. split; reflexivity. Qed.


(** ** Missing sections and malformed fields *)

(** C6: on a validated document without the "Direct Messages" section the
    Direct Messages extractor raises [AttributeError] instead of returning
    "no result"; with the section present and no chat entries it returns
    a table without rows. *)
Lemma direct_messages_missing_section :
  get_in no_chat_document ["Direct Messages"; "Chat History"; "ChatHistory"]
  = Ok JNull
  /\ extract_direct_messages no_chat_document = Raise AttributeError
  /\ exists er, extract_direct_messages empty_chat_document = Ok (Some er)
                /\ rows (data_frame er) = [].
Proof. split; [|split]; [reflexivity | reflexivity |]. eexists. by split. Qed.

(** On a document with a video watched and no "Direct Messages" section
    the five extractors before it return, and the exception of the
    Direct Messages extractor is the outcome of the orchestrator. *)
Example missing_chat_section_stops_extraction :
  get_in watched_document ["Direct Messages"; "Chat History"; "ChatHistory"]
  = Ok JNull
  /\ (exists tables,
        mapM (fun extractor_ : extractor => extractor_ watched_document)
             (take 5 extractors) = Ok tables)
  /\ extract_direct_messages watched_document = Raise AttributeError
  /\ extract_tiktok_data (json_file_of watched_document) = Raise AttributeError.
Proof.
  split; [reflexivity|]. split; [eexists; reflexivity|].
  split; reflexivity.
Qed.

(** The Direct Messages extractor has no "no result" outcome at all. *)
Lemma direct_messages_never_no_result data :
  extract_direct_messages data <> Ok None.
Proof.
  intros H. unfold extract_direct_messages in H.
  bind_inv H history Hh. bind_inv H user_name Hu. bind_inv H own Ho.
  bind_inv H items Hi. bind_inv H acc Hloop. by destruct acc.
Qed.

(** The sibling extractor does return "no result" on a missing section. *)
Example video_posts_missing_section :
  extract_video_posts no_chat_document = Ok None.
Proof. reflexivity. Qed.

(** A frame without rows: the Videos Viewed and the Session Info extractor
    raise [AttributeError] on a document without any dated activity, the
    Video Posts extractor on a video list without a video in the window,
    and the orchestrator with them. *)
Example empty_frames_raise :
  extract_videos_viewed no_chat_document = Raise AttributeError
  /\ extract_session_info no_chat_document = Raise AttributeError
  /\ extract_video_posts (posts_document []) = Raise AttributeError
  /\ extract_video_posts
       (posts_document [video "2020-06-01 15:00:01" (JStr "3")])
     = Raise AttributeError
  /\ extract_tiktok_data (json_file_of empty_chat_document)
     = Raise AttributeError.
Proof. repeat split; reflexivity. Qed.

(** [int] on texts: white space around the number and single underscores
    between digits are accepted; [==] takes [True] for 1 and compares
    dicts whatever the order of their keys. *)
Example int_and_equality :
  py_int (JStr " 1_000 ") = Ok 1000
  /\ py_int (JStr "-12") = Ok (-12)
  /\ py_int (JStr "1__0") = Raise ValueError
  /\ py_int (JStr "_1") = Raise ValueError
  /\ py_int (JStr "- 1") = Raise ValueError
  /\ py_int (JStr "") = Raise ValueError
  /\ json_eqb (JBool true) (JInt 1) = true
  /\ json_eqb (JObj [("a", JInt 1); ("b", JStr "x")])
              (JObj [("b", JStr "x"); ("a", JInt 1)]) = true
  /\ json_eqb (JObj [("a", JInt 1)]) (JObj [("a", JInt 1); ("b", JNull)])
     = false
  /\ json_eqb (JStr "1") (JInt 1) = false.
Proof. repeat split; reflexivity. Qed.

(** C9: a video whose Likes is the text "None", or that has no Likes
    field, makes the Video Posts extractor raise ([ValueError],
    [KeyError]); [cast_number], which maps both to 0, is not used there. *)
Lemma video_posts_likes_none :
  extract_video_posts
    (posts_document [video "2022-06-01 15:00:01" (JStr "None")])
  = Raise ValueError
  /\ extract_video_posts
       (posts_document [JObj [("Date", JStr "2022-06-01 15:00:01")]])
     = Raise KeyError
  /\ cast_number (video "2022-06-01 15:00:01" (JStr "None")) ["Likes"]
     = Ok (JInt 0)
  /\ cast_number (JObj [("Date", JStr "2022-06-01 15:00:01")]) ["Likes"]
     = Ok (JInt 0).
Proof. repeat split; reflexivity. Qed.

(** With numeric texts the likes of the videos of one hour are added. *)
Example video_posts_sum :
  exists er,
    extract_video_posts
      (posts_document [video "2022-06-01 15:00:01" (JStr "3");
                       video "2022-06-01 15:40:00" (JStr "4");
                       video "2022-06-01 16:00:00" (JStr "5")])
    = Ok (Some er)
    /\ rows (data_frame er)
       = [[CStr "2022-06-01"; CStr "15-16"; CInt 2; CInt 7];
          [CStr "2022-06-01"; CStr "16-17"; CInt 1; CInt 5]].
Proof. eexists. split; reflexivity. Qed.

(** C1: the Videos Viewed and Direct Messages tables are not filtered by
    the analysis window.  The document has one video watched on
    2020-06-01 and one message received on 2019-03-05, both before the
    window starts.  Each of the two tables has a row for its item, while
    the Summary, which reads the same two sections through
    [get_date_filtered_items], counts no video watched and no message. *)
Lemma tables_keep_items_outside_window :
  item_timestamp (dated "2020-06-01 12:00:00")
  = Ok (mk_datetime 2020 6 1 12 0 0)
  /\ mk_datetime 2020 6 1 12 0 0 < filter_start
  /\ item_timestamp (message "friend" "2019-03-05 08:30:00")
     = Ok (mk_datetime 2019 3 5 8 30 0)
  /\ mk_datetime 2019 3 5 8 30 0 < filter_start
  /\ (exists er, extract_videos_viewed early_document = Ok (Some er)
                 /\ rows (data_frame er)
                    = [[CJson (JStr "2020-06-01 12:00:00"); CStr "12-13";
                        CJson (JStr "https://www.tiktokv.com/share/video/1/")]])
  /\ (exists er, extract_direct_messages early_document = Ok (Some er)
                 /\ rows (data_frame er) = [[CInt 2; CStr "2019-03-05 08:30"]])
  /\ filtered_count early_document
       ["Activity"; "Video Browsing History"; "VideoList"] = Ok 0
  /\ (exists er, extract_summary_data early_document = Ok (Some er)
                 /\ [CStr "Videos watched"; CInt 0] ∈ rows (data_frame er)
                 /\ [CStr "Messages sent"; CInt 0] ∈ rows (data_frame er)
                 /\ [CStr "Messages received"; CInt 0] ∈ rows (data_frame er)).
Proof.
  split; [reflexivity|]. split; [reflexivity|].
  split; [reflexivity|]. split; [reflexivity|].
  split; [eexists; by split|]. split; [eexists; by split|].
  split; [reflexivity|].
  eexists. split; [reflexivity|]. cbn [rows data_frame].
  split; [set_solver|]. split; set_solver.
Qed.

(** ** The donation flow *)

(** C2: a file that parses as JSON and has no user name makes the reader
    raise [IOError], not [InvalidFileError]; the zip scan is not tried;
    the flow then shows the retry confirmation once and returns, also
    when the user confirms, and does not prompt for a file again. *)
Lemma invalid_export_raises_io_error :
  load_tiktok_data (file_load foreign_json_file) = Raise IOError
  /\ get_json_data_from_file foreign_json_file = Raise IOError
  /\ get_json_data_from_file foreign_json_with_archive = Raise IOError
  /\ tik_tok_data_donation example_fs "session"
       [PayloadString "foreign.json"; PayloadTrue; PayloadString "export.json"]
     = {| yielded := [file_prompt "TikTok" "application/zip, text/plain, application/json";
                      retry_prompt "TikTok"];
          result := Returned;
          meta_data := [("debug", "TikTok: extracting file");
                        ("debug", "TikTok: prompt confirmation to retry file selection")] |}.
Proof. repeat split; reflexivity. Qed.

(** What [process] does when the extractor raises an I/O error. *)
Lemma process_io_error platform mime_types extractor_ session_id
    value e answer rest meta_data_ :
  extractor_ value = Raise e -> is_IOError e = true ->
  process platform mime_types extractor_ session_id
          (PayloadString value :: answer :: rest) meta_data_
  = {| yielded := [file_prompt platform mime_types; retry_prompt platform];
       result := Returned;
       meta_data :=
         log platform
           (log platform meta_data_ "extracting file")
           "prompt confirmation to retry file selection" |}.
Proof. intros He Hio. cbn [process]. by rewrite He, Hio. Qed.

Lemma extract_tiktok_data_raises file_ e :
  get_json_data_from_file file_ = Raise e -> extract_tiktok_data file_ = Raise e.
Proof. intros H. unfold extract_tiktok_data. by rewrite H. Qed.

(** X30: When reading the chosen file ends in an I/O-class exception, the
    flow logs it, yields the file prompt and then exactly one retry
    confirmation, and returns whatever the answer is and whatever
    responses would follow: it never prompts for a file again. *)
Theorem io_failure_ends_flow fs session_id value e answer rest :
  get_json_data_from_file (fs value) = Raise e -> is_IOError e = true ->
  tik_tok_data_donation fs session_id (PayloadString value :: answer :: rest)
  = {| yielded := [file_prompt "TikTok" "application/zip, text/plain, application/json";
                   retry_prompt "TikTok"];
       result := Returned;
       meta_data := [("debug", "TikTok: extracting file");
                     ("debug", "TikTok: prompt confirmation to retry file selection")] |}.
Proof.
  intros He Hio. unfold tik_tok_data_donation.
  by rewrite (process_io_error _ _ _ _ value e answer rest []
                (extract_tiktok_data_raises _ _ He) Hio).
Qed.

Lemma io_failure_ends_flow_witness :
  get_json_data_from_file (example_fs "missing.zip") = Raise IOError
  /\ is_IOError IOError = true
  /\ tik_tok_data_donation example_fs "session"
       [PayloadString "missing.zip"; PayloadTrue; PayloadString "export.json"]
     = {| yielded := [file_prompt "TikTok" "application/zip, text/plain, application/json";
                      retry_prompt "TikTok"];
          result := Returned;
          meta_data := [("debug", "TikTok: extracting file");
                        ("debug", "TikTok: prompt confirmation to retry file selection")] |}.
Proof.
  split; [reflexivity|]. split; [reflexivity|].
  apply (io_failure_ends_flow example_fs "session" "missing.zip" IOError);
    reflexivity.
Defined.

(** While the answer to the retry confirmation is awaited the flow is
    suspended, with the same two requests yielded. *)
Example io_failure_suspended :
  result (tik_tok_data_donation example_fs "session" [PayloadString "missing.zip"])
  = Suspended
  /\ length (yielded (tik_tok_data_donation example_fs "session"
                        [PayloadString "missing.zip"])) = 2%nat.
Proof. by split. Qed.

(** C3: a text that is neither JSON nor a zip archive is undecodable at
    both attempts: [json.load] fails to decode it and [zipfile.ZipFile]
    then raises [BadZipFile], which is no I/O-class exception.  [process]
    does not catch it: the flow has yielded the file prompt only, shows
    no retry confirmation, logs no failure, and ends in the exception. *)
Lemma undecodable_file_leaves_flow :
  load_tiktok_data (file_load garbage_file) = Raise JSONDecodeError
  /\ get_json_data_from_zip garbage_file = Raise BadZipFile
  /\ get_json_data_from_file garbage_file = Raise BadZipFile
  /\ is_IOError BadZipFile = false
  /\ tik_tok_data_donation example_fs "session"
       [PayloadString "garbage.txt"; PayloadTrue]
     = {| yielded := [file_prompt "TikTok" "application/zip, text/plain, application/json"];
          result := Raised BadZipFile;
          meta_data := [("debug", "TikTok: extracting file")] |}.
Proof. repeat split; reflexivity. Qed.


(** ** The orchestrator *)

Lemma mapM_Ok {A B} (f : A -> res B) (l : list A) (k : list B) :
  mapM f l = Ok k -> Forall2 (fun x y => f x = Ok y) l k.
Proof.
  revert k. induction l as [|x l IH]; intros k H.
  - inversion H. constructor.
  - cbn in H. bind_inv H y Hy. bind_inv H k' Hk. inversion H; subst.
    constructor; auto.
Qed.

Lemma summary_id data o :
  extract_summary_data data = Ok o ->
  exists er, o = Some er /\ id_ er = "tiktok_summary".
Proof.
  intros H. unfold extract_summary_data in H.
  repeat (let a := fresh "a" in let Ha := fresh "Ha" in bind_inv H a Ha).
  inversion H. by eexists.
Qed.

Lemma video_posts_id data er :
  extract_video_posts data = Ok (Some er) -> id_ er = "tiktok_posts".
Proof.
  intros H. unfold extract_video_posts in H. bind_inv H video_list Hv.
  destruct video_list; try discriminate H;
    bind_inv H stats Hs; destruct stats; by inversion H.
Qed.

Lemma comments_and_likes_id data er :
  extract_comments_and_likes data = Ok (Some er) ->
  id_ er = "tiktok_comments_and_likes".
Proof.
  intros H. unfold extract_comments_and_likes in H.
  repeat (let a := fresh "a" in let Ha := fresh "Ha" in bind_inv H a Ha).
  match type of H with match ?l with _ => _ end = _ => destruct l end;
    by inversion H.
Qed.

Lemma videos_viewed_id data er :
  extract_videos_viewed data = Ok (Some er) -> id_ er = "tiktok_videos_viewed".
Proof.
  intros H. unfold extract_videos_viewed in H.
  repeat (let a := fresh "a" in let Ha := fresh "Ha" in bind_inv H a Ha).
  match type of H with match ?l with _ => _ end = _ => destruct l end;
    by inversion H.
Qed.

Lemma session_info_id data er :
  extract_session_info data = Ok (Some er) -> id_ er = "tiktok_session_info".
Proof.
  intros H. unfold extract_session_info in H.
  repeat (let a := fresh "a" in let Ha := fresh "Ha" in bind_inv H a Ha).
  cbv zeta in H.
  match type of H with match ?l with _ => _ end = _ => destruct l end;
    by inversion H.
Qed.

Lemma direct_messages_id data er :
  extract_direct_messages data = Ok (Some er) ->
  id_ er = "tiktok_direct_messages".
Proof.
  intros H. unfold extract_direct_messages in H.
  repeat (let a := fresh "a" in let Ha := fresh "Ha" in bind_inv H a Ha).
  match type of H with (let '(_, _) := ?p in _) = _ => destruct p end.
  by inversion H.
Qed.


(** The outputs of the six extractors, when all of them return. *)
Lemma extractors_outputs data outs :
  Forall2 (fun (e : extractor) o => e data = Ok o) extractors outs ->
  exists summary o2 o3 o4 o5 o6,
    outs = [Some summary; o2; o3; o4; o5; o6]
    /\ id_ summary = "tiktok_summary"
    /\ map id_ (omap (fun table => table) [o2; o3; o4; o5; o6])
       `sublist_of` tail extractors_order.
Proof.
  unfold extractors. intros H.
  repeat match goal with
         | H : Forall2 _ (_ :: _) _ |- _ =>
             apply Forall2_cons_inv_l in H as (? & ? & ? & H & ->)
         | H : Forall2 _ [] _ |- _ => apply Forall2_nil_inv_l in H as ->
         end.
  match goal with H : extract_summary_data _ = _ |- _ =>
    apply summary_id in H as (summary & -> & Hid) end.
  eexists _, _, _, _, _, _. split; [done|]. split; [done|].
  unfold extractors_order. cbn [tail].
  repeat match goal with
         | H : _ data = Ok ?o |- _ => is_var o; destruct o
         end;
  repeat match goal with
         | H : extract_video_posts _ = Ok (Some _) |- _ =>
             apply video_posts_id in H
         | H : extract_comments_and_likes _ = Ok (Some _) |- _ =>
             apply comments_and_likes_id in H
         | H : extract_videos_viewed _ = Ok (Some _) |- _ =>
             apply videos_viewed_id in H
         | H : extract_session_info _ = Ok (Some _) |- _ =>
             apply session_info_id in H
         | H : extract_direct_messages _ = Ok (Some _) |- _ =>
             apply direct_messages_id in H
         end;
  cbn [omap list_omap map];
  repeat match goal with H : id_ _ = _ |- _ => rewrite H; clear H end;
  solve [repeat first [apply sublist_nil_l | apply sublist_skip
                      | apply sublist_cons]].
Qed.


Lemma extract_tiktok_data_inv file_ r :
  extract_tiktok_data file_ = Ok r ->
  (r = None /\ get_json_data_from_file file_ = Ok [])
  \/ exists data docs outs,
       get_json_data_from_file file_ = Ok (data :: docs)
       /\ Forall2 (fun (e : extractor) o => e data = Ok o) extractors outs
       /\ r = Some (omap (fun table => table) outs).
Proof.
  intros H. unfold extract_tiktok_data in H. bind_inv H docs Hd.
  destruct docs as [|data docs]; [inversion H; auto|].
  bind_inv H outs Ho. inversion H; subst. right.
  exists data, docs, outs. by apply mapM_Ok in Ho.
Qed.

(** C7 (counterexample): on a document for which all six extractors
    return a table, the orchestrator returns them in the order of its
    [extractors] list, Video Posts and Comments & Likes before Videos
    Viewed, which is not the order of the specification's table. *)
Lemma orchestrator_order_differs :
  exists tables,
    extract_tiktok_data (json_file_of full_document) = Ok (Some tables)
    /\ map id_ tables = extractors_order
    /\ map id_ tables <> specified_order.
Proof. eexists. split; [reflexivity|]. by split. Qed.

(** C7 (amended): for every document the reader yields, the orchestrator
    runs the extractors in the fixed order Summary, Video Posts,
    Comments & Likes, Videos Viewed, Session Info, Direct Messages, and
    what it returns is the list of their outputs other than "no result",
    in exactly that order. *)
Theorem orchestrator_keeps_extractors_order file_ tables :
  extract_tiktok_data file_ = Ok (Some tables) ->
  exists data docs outs,
    get_json_data_from_file file_ = Ok (data :: docs)
    /\ Forall2 (fun (e : extractor) o => e data = Ok o)
         [extract_summary_data; extract_video_posts;
          extract_comments_and_likes; extract_videos_viewed;
          extract_session_info; extract_direct_messages] outs
    /\ tables = omap (fun table => table) outs
    /\ map id_ tables `sublist_of` extractors_order.
Proof.
  intros H. apply extract_tiktok_data_inv in H as [[? _]|H]; [done|].
  destruct H as (data & docs & outs & Hd & Houts & [= ->]).
  exists data, docs, outs. split; [done|]. split; [done|]. split; [done|].
  apply extractors_outputs in Houts
    as (summary & o2 & o3 & o4 & o5 & o6 & -> & Hid & Hsub).
  cbn [omap list_omap map]. rewrite Hid. by apply sublist_skip.
Qed.

Lemma orchestrator_keeps_extractors_order_witness :
  exists tables data docs outs,
    extract_tiktok_data (json_file_of full_document) = Ok (Some tables)
    /\ get_json_data_from_file (json_file_of full_document) = Ok (data :: docs)
    /\ Forall2 (fun (e : extractor) o => e data = Ok o)
         [extract_summary_data; extract_video_posts;
          extract_comments_and_likes; extract_videos_viewed;
          extract_session_info; extract_direct_messages] outs
    /\ tables = omap (fun table => table) outs
    /\ map id_ tables `sublist_of` extractors_order.
Proof.
  assert (exists tables,
            extract_tiktok_data (json_file_of full_document)
            = Ok (Some tables)) as [tables E] by (eexists; reflexivity).
  destruct (orchestrator_keeps_extractors_order _ tables E)
    as (data & docs & outs & H).
  exists tables, data, docs, outs. split; [exact E | exact H].
Defined.

Lemma summary_never_no_result data : extract_summary_data data <> Ok None.
Proof. intros H. by apply summary_id in H as (er & ? & _). Qed.

(** C10: a list returned by the orchestrator is never empty and starts
    with the summary table, as the Summary extractor has no "no result"
    outcome; the orchestrator returns no list exactly when the reader
    yields no document, so for a loaded document the flow never meets
    the empty-extraction condition. *)
Theorem extraction_starts_with_summary file_ :
  (forall tables, extract_tiktok_data file_ = Ok (Some tables) ->
     exists summary rest,
       tables = summary :: rest /\ id_ summary = "tiktok_summary")
  /\ (extract_tiktok_data file_ = Ok None <->
      get_json_data_from_file file_ = Ok [])
  /\ (forall data docs, get_json_data_from_file file_ = Ok (data :: docs) ->
        extract_tiktok_data file_ <> Ok None
        /\ extract_tiktok_data file_ <> Ok (Some [])
        /\ extract_summary_data data <> Ok None).
Proof.
  split; [|split].
  - intros tables H. apply extract_tiktok_data_inv in H as [[? _]|H]; [done|].
    destruct H as (data & docs & outs & Hd & Houts & [= ->]).
    apply extractors_outputs in Houts
      as (summary & o2 & o3 & o4 & o5 & o6 & -> & Hid & _).
    by eexists _, _.
  - split.
    + intros H. apply extract_tiktok_data_inv in H as [[_ ?]|H]; [done|].
      by destruct H as (? & ? & ? & _ & _ & ?).
    + intros H. unfold extract_tiktok_data. by rewrite H.
  - intros data docs Hd. split; [|split].
    + intros H. apply extract_tiktok_data_inv in H as [[_ H]|H]; [congruence|].
      by destruct H as (? & ? & ? & _ & _ & ?).
    + intros H. apply extract_tiktok_data_inv in H as [[? _]|H]; [done|].
      destruct H as (data' & docs' & outs & _ & Houts & [= E]).
      apply extractors_outputs in Houts
        as (summary & o2 & o3 & o4 & o5 & o6 & -> & _ & _).
      done.
    + apply summary_never_no_result.
Qed.

Lemma extraction_starts_with_summary_witness :
  exists tables summary rest,
    extract_tiktok_data (json_file_of full_document) = Ok (Some tables)
    /\ tables = summary :: rest /\ id_ summary = "tiktok_summary".
Proof.
  assert (exists tables,
            extract_tiktok_data (json_file_of full_document)
            = Ok (Some tables)) as [tables E] by (eexists; reflexivity).
  destruct (proj1 (extraction_starts_with_summary
                     (json_file_of full_document)) tables E)
    as (summary & rest & H).
  exists tables, summary, rest. split; [exact E | exact H].
Defined.

(** A document with nothing but a profile: every count of the summary
    defaults to zero, and the flow still goes on to the consent form
    only if the other extractors return. *)
Example summary_of_bare_profile :
  exists er, extract_summary_data empty_chat_document = Ok (Some er)
             /\ rows (data_frame er)
                = [[CStr "Followers"; CInt 0]; [CStr "Following"; CInt 0];
                   [CStr "Likes received"; CJson (JStr "12")];
                   [CStr "Videos posted"; CInt 0]; [CStr "Likes given"; CInt 0];
                   [CStr "Comments posted"; CInt 0]; [CStr "Messages sent"; CInt 0];
                   [CStr "Messages received"; CInt 0];
                   [CStr "Videos watched"; CInt 0]].
Proof. eexists. by split. Qed.
(** * Further properties of the code *)

(** ** Reading a path of keys *)

Lemma dict_get_raises d k e : dict_get d k = Raise e -> e = AttributeError.
Proof. destruct d; cbn; congruence. Qed.

Lemma get_in_raises key_path : forall data e,
  get_in data key_path = Raise e -> e = AttributeError.
Proof.
  induction key_path as [|k key_path IH]; intros data e H; [discriminate H|].
  cbn [get_in] in H. destruct (dict_get data k) as [v|e'] eqn:E.
  - cbn in H. destruct v; try discriminate H; by apply IH in H.
  - cbn in H. injection H as <-. by apply dict_get_raises in E.
Qed.

(** X1: The path helpers use [.get(k, None)] and so never raise [KeyError]:
    the only exception of [get_in], [get_list], [get_dict], [get_string]
    and [cast_number] is the [AttributeError] of a value on the path that
    is neither a dict nor [None]. *)
Theorem path_helpers_raise_only_AttributeError data key_path e :
  get_in data key_path = Raise e
  \/ get_list data key_path = Raise e
  \/ get_dict data key_path = Raise e
  \/ get_string data key_path = Raise e
  \/ cast_number data key_path = Raise e ->
  e = AttributeError.
Proof.
  unfold get_list, get_dict, get_string, cast_number.
  destruct (get_in data key_path) as [v|e'] eqn:E; cbn.
  - intros [H|[H|[H|[H|H]]]]; try discriminate H;
      destruct v; cbn in H; repeat case_match; discriminate H.
  - apply get_in_raises in E as ->.
    intros [H|[H|[H|[H|H]]]]; congruence.
Qed.

Lemma path_helpers_raise_only_AttributeError_witness :
  get_list (JObj [("Profile", JStr "me")]) ["Profile"; "Profile Information"]
  = Raise AttributeError
  /\ AttributeError = AttributeError.
Proof.
  split; [reflexivity|].
  apply (path_helpers_raise_only_AttributeError
           (JObj [("Profile", JStr "me")])
           ["Profile"; "Profile Information"] AttributeError).
  right; left; reflexivity.
Defined.

Lemma get_in_app_nonnull q key_path : forall data,
  data <> JNull ->
  get_in data (key_path ++ q)
  = r ← get_in data key_path;
    match r with JNull => Ok JNull | _ => get_in r q end.
Proof.
  induction key_path as [|k key_path IH]; intros data Hd.
  - cbn. by destruct data.
  - cbn [app get_in]. destruct (dict_get data k) as [v|e]; [|done].
    cbn. destruct v; try (apply IH; discriminate). done.
Qed.

(** X2: Reading a path in two steps: on a document that is not [None],
    [get_in] along [key_path ++ rest] is [get_in] along [key_path]
    followed, unless that gave [None], by [get_in] along [rest]; a
    missing key anywhere on the way makes the whole lookup [None]. *)
Theorem get_in_app data key_path rest :
  data <> JNull ->
  get_in data (key_path ++ rest)
  = r ← get_in data key_path;
    match r with JNull => Ok JNull | _ => get_in r rest end.
Proof. apply get_in_app_nonnull. Qed.

Lemma get_in_app_witness :
  get_in full_document (["Profile"; "Profile Information"] ++ ["ProfileMap"; "userName"])
  = r ← get_in full_document ["Profile"; "Profile Information"];
    match r with JNull => Ok JNull | _ => get_in r ["ProfileMap"; "userName"] end.
Proof. apply (get_in_app full_document). discriminate. Defined.

(** ** The export reader *)

Lemma load_tiktok_data_Ok json_file data :
  load_tiktok_data json_file = Ok data ->
  json_file = Ok data /\ validated data.
Proof.
  unfold load_tiktok_data. intros H.
  bind_inv H data' Hd. bind_inv H user_name Hu.
  destruct (truthy user_name) eqn:Ht; [|discriminate H].
  injection H as <-. split; [done|]. by exists user_name.
Qed.

Lemma scan_zip_skip entry entries :
  skipped_entry entry -> scan_zip (entry :: entries) = scan_zip entries.
Proof.
  intros Hs. cbn [scan_zip]. unfold skipped_entry, is_json_entry in Hs.
  destruct (endswith (entry_name entry) ".json"); [|done].
  destruct Hs as (-> & e & -> & ->); done.
Qed.

(** X3: Entries whose name does not end in [.json] play no part in the zip
    scan: removing them from the archive does not change its result. *)
Theorem scan_zip_ignores_other_names entries :
  scan_zip (filter (fun entry => is_json_entry entry = true) entries)
  = scan_zip entries.
Proof.
  induction entries as [|entry entries IH]; [done|].
  destruct (is_json_entry entry) eqn:E.
  - rewrite filter_cons_True by done. cbn [scan_zip].
    unfold is_json_entry in E. rewrite E. cbn [negb].
    destruct (entry_open entry); [done|].
    destruct (load_tiktok_data (entry_load entry)) as [|e]; [done|].
    by destruct (is_suppressed_in_zip e).
  - rewrite filter_cons_False by (rewrite E; discriminate).
    rewrite IH. symmetry. apply scan_zip_skip. intros H. congruence.
Qed.

(** X4: The zip scan returns the first [.json] entry that loads and
    validates: entries before it that are not [.json] files, or whose
    loading fails with a JSON or I/O error (which includes a document
    without user name), are passed over, and entries after it are not
    looked at. *)
Theorem scan_zip_first_valid_entry skipped good rest data :
  Forall skipped_entry skipped ->
  is_json_entry good = true ->
  entry_open good = None ->
  load_tiktok_data (entry_load good) = Ok data ->
  scan_zip (skipped ++ good :: rest) = Ok [data].
Proof.
  intros Hs Hj Ho Hl. induction Hs as [|entry skipped He _ IH].
  - cbn [app scan_zip]. unfold is_json_entry in Hj. by rewrite Hj, Ho, Hl.
  - cbn [app]. by rewrite scan_zip_skip.
Qed.

(** X5: The zip scan yields no document exactly when it passes over every
    entry of the archive. *)
Theorem scan_zip_nothing_iff entries :
  scan_zip entries = Ok [] <-> Forall skipped_entry entries.
Proof.
  induction entries as [|entry entries IH]; [by split; [constructor|]|].
  split.
  - cbn [scan_zip]. intros H. destruct (is_json_entry entry) eqn:E.
    + unfold is_json_entry in E. rewrite E in H. cbn [negb] in H.
      destruct (entry_open entry) eqn:Eo; [discriminate H|].
      destruct (load_tiktok_data (entry_load entry)) as [|e] eqn:El;
        [discriminate H|].
      destruct (is_suppressed_in_zip e) eqn:Es; [|discriminate H].
      constructor; [|by apply IH]. intros _. eauto.
    + unfold is_json_entry in E. rewrite E in H. cbn [negb] in H.
      constructor; [|by apply IH]. intros H'. unfold is_json_entry in H'.
      congruence.
  - intros H. inversion H as [|? ? He Hes]; subst.
    rewrite scan_zip_skip by done. by apply IH.
Qed.

Lemma scan_zip_Ok entries : forall docs,
  scan_zip entries = Ok docs ->
  docs = []
  \/ exists entry data,
       entry ∈ entries /\ is_json_entry entry = true
       /\ entry_load entry = Ok data /\ validated data /\ docs = [data].
Proof.
  induction entries as [|entry entries IH]; intros docs H.
  - left. cbn in H. congruence.
  - cbn [scan_zip] in H.
    assert (scan_zip entries = Ok docs -> docs = []
      \/ exists entry0 data,
           entry0 ∈ entry :: entries /\ is_json_entry entry0 = true
           /\ entry_load entry0 = Ok data /\ validated data /\ docs = [data])
      as Hrest.
    { intros H'. destruct (IH _ H') as [?|(entry0 & data & ? & ?)]; [by left|].
      right. exists entry0, data. split; [by right|done]. }
    destruct (endswith (entry_name entry) ".json") eqn:E; cbn [negb] in H;
      [|by apply Hrest].
    destruct (entry_open entry); [discriminate H|].
    destruct (load_tiktok_data (entry_load entry)) as [data|e] eqn:El.
    + injection H as <-. apply load_tiktok_data_Ok in El as [El Hv].
      right. exists entry, data. split; [by left|done].
    + destruct (is_suppressed_in_zip e); [by apply Hrest | discriminate H].
Qed.

(** X6: The reader yields at most one document, and only a validated one
    (with a user name that is not empty): the text of the file itself
    or, when that is not JSON, a [.json] entry of the archive; no
    document at all is only ever the outcome of the zip scan. *)
Theorem reader_yields_validated_document file_ docs :
  get_json_data_from_file file_ = Ok docs ->
  (exists data, docs = [data] /\ validated data
                /\ (file_load file_ = Ok data
                    \/ exists entries entry,
                         file_zip file_ = Ok entries /\ entry ∈ entries
                         /\ is_json_entry entry = true
                         /\ entry_load entry = Ok data))
  \/ (docs = [] /\ exists entries,
        file_zip file_ = Ok entries /\ Forall skipped_entry entries).
Proof.
  assert (get_json_data_from_zip file_ = Ok docs ->
    (exists data, docs = [data] /\ validated data
                  /\ (file_load file_ = Ok data
                      \/ exists entries entry,
                           file_zip file_ = Ok entries /\ entry ∈ entries
                           /\ is_json_entry entry = true
                           /\ entry_load entry = Ok data))
    \/ (docs = [] /\ exists entries,
          file_zip file_ = Ok entries /\ Forall skipped_entry entries))
    as Hzip.
  { unfold get_json_data_from_zip. intros H. bind_inv H entries He.
    destruct (scan_zip_Ok _ _ H) as [->|(entry & data & ? & ? & ? & ? & ->)].
    - right. split; [done|]. exists entries. split; [done|].
      by apply scan_zip_nothing_iff.
    - left. exists data. split; [done|]. split; [done|]. right.
      by exists entries, entry. }
  unfold get_json_data_from_file.
  destruct (file_open file_) as [e|].
  { destruct (is_decode_error e); [done | discriminate]. }
  destruct (load_tiktok_data (file_load file_)) as [data|e] eqn:El.
  - intros [= <-]. apply load_tiktok_data_Ok in El as [El Hv].
    left. exists data. auto.
  - destruct (is_decode_error e); [done | discriminate].
Qed.

Lemma scan_zip_first_valid_entry_witness :
  scan_zip example_archive = Ok [full_document].
Proof.
  apply (scan_zip_first_valid_entry example_archive_skipped example_export_entry).
  - apply Forall_cons. split.
    { intros Hjson. vm_compute in Hjson. discriminate Hjson. }
    apply Forall_cons. split; [|by apply Forall_nil].
    intros _. split; [reflexivity|]. exists IOError. split; reflexivity.
  - reflexivity.
  - reflexivity.
  - reflexivity.
Defined.

Lemma reader_yields_validated_document_witness :
  get_json_data_from_file zipped_export = Ok [full_document]
  /\ ((exists data, [full_document] = [data] /\ validated data
                /\ (file_load zipped_export = Ok data
                    \/ exists entries entry,
                         file_zip zipped_export = Ok entries /\ entry ∈ entries
                         /\ is_json_entry entry = true
                         /\ entry_load entry = Ok data))
      \/ ([full_document] = [] /\ exists entries,
            file_zip zipped_export = Ok entries /\ Forall skipped_entry entries)).
Proof.
  split; [reflexivity|].
  apply (reader_yields_validated_document zipped_export). reflexivity.
Defined.

(** ** The window filter on malformed and missing data *)

(** X7: The window filter is lazy and stops at the first item whose Date is
    missing or does not parse: the items kept before it have been
    yielded, the exception of that item ends the iteration, and the items
    after it are not looked at; counting such a section raises the same
    exception. *)
Theorem window_filter_stops_at_malformed_item good bad rest tail e :
  Forall (fun item => exists t, item_timestamp item = Ok t) good ->
  item_timestamp bad = Raise e ->
  get_date_filtered_items (good ++ bad :: rest, tail) = (omap kept good, Some e)
  /\ gen_list (get_date_filtered_items (good ++ bad :: rest, tail)) = Raise e.
Proof.
  intros Hgood Hbad.
  assert (get_date_filtered_items (good ++ bad :: rest, tail)
          = (omap kept good, Some e)) as ->; [|done].
  unfold get_date_filtered_items. cbn [fst snd].
  induction Hgood as [|item good [t Ht] _ IH].
  - cbn. by rewrite Hbad.
  - change (date_filtered_from ((item :: good) ++ bad :: rest) tail)
      with (match item_timestamp item with
            | Raise e => ([], Some e)
            | Ok timestamp =>
                if outside_window timestamp
                then date_filtered_from (good ++ bad :: rest) tail
                else let '(out, t) := date_filtered_from (good ++ bad :: rest) tail in
                     ((timestamp, item) :: out, t)
            end).
    change (omap kept (item :: good))
      with (match kept item with
            | Some y => y :: omap kept good
            | None => omap kept good
            end).
    unfold kept at 1. rewrite Ht, IH. by destruct (outside_window t).
Qed.

Lemma window_filter_stops_at_malformed_item_witness :
  get_date_filtered_items
    ([dated "2022-06-01 12:00:00"; dated "2020-06-01 12:00:00"]
     ++ undated :: [dated "2022-06-01 12:03:00"], None)
  = ([(mk_datetime 2022 6 1 12 0 0, dated "2022-06-01 12:00:00")], Some KeyError)
  /\ gen_list (get_date_filtered_items
       ([dated "2022-06-01 12:00:00"; dated "2020-06-01 12:00:00"]
        ++ undated :: [dated "2022-06-01 12:03:00"], None))
     = Raise KeyError.
Proof.
  apply (window_filter_stops_at_malformed_item
           [dated "2022-06-01 12:00:00"; dated "2020-06-01 12:00:00"]
           undated [dated "2022-06-01 12:03:00"] None KeyError).
  - repeat constructor; eexists; reflexivity.
  - reflexivity.
Defined.

Lemma window_count_bounds (items : list json) :
  0 <= window_count items <= Z.of_nat (length items).
Proof.
  unfold window_count. split; [lia|].
  apply inj_le, length_filter.
Qed.

(** X8: A time-filtered count is 0 for a section that is missing from the
    document, and otherwise lies between 0 and the number of items of the
    section. *)
Theorem filtered_count_bounds data key_path :
  (get_in data key_path = Ok JNull -> filtered_count data key_path = Ok 0)
  /\ (forall n, filtered_count data key_path = Ok n ->
        exists section,
          get_list data key_path = Ok section
          /\ 0 <= n <= Z.of_nat (length (iterate section).1)).
Proof.
  split.
  - intros H. unfold filtered_count, get_list. by rewrite H.
  - intros n H. apply filtered_count_spec in H as (section & Hs & ->).
    exists section. split; [done|]. apply window_count_bounds.
Qed.

Lemma filtered_count_bounds_witness :
  filtered_count no_chat_document ["Video"; "Videos"; "VideoList"] = Ok 0
  /\ exists section,
       get_list early_document ["Activity"; "Video Browsing History"; "VideoList"]
       = Ok section
       /\ 0 <= 0 <= Z.of_nat (length (iterate section).1).
Proof.
  split.
  - apply (proj1 (filtered_count_bounds no_chat_document
                    ["Video"; "Videos"; "VideoList"])). reflexivity.
  - apply (proj2 (filtered_count_bounds early_document
                    ["Activity"; "Video Browsing History"; "VideoList"]) 0).
    reflexivity.
Defined.

(** ** Counting by key *)

Lemma count_key_cons key_func t timestamps k :
  count_key key_func (t :: timestamps) k
  = (if decide (key_func t = k) then 1 else 0) + count_key key_func timestamps k.
Proof.
  unfold count_key. case_decide as E.
  - rewrite filter_cons_True by done. cbn [length]. lia.
  - rewrite filter_cons_False by done. lia.
Qed.

Lemma count_key_nonneg key_func timestamps k : 0 <= count_key key_func timestamps k.
Proof. unfold count_key. lia. Qed.

Lemma fold_count_timestamp key_func k timestamps : forall item_count,
  fold_left (count_timestamp key_func) timestamps item_count !! k
  = if count_key key_func timestamps k =? 0 then item_count !! k
    else Some (default 0 (item_count !! k) + count_key key_func timestamps k).
Proof.
  induction timestamps as [|t timestamps IH]; intros item_count; [done|].
  cbn [fold_left]. rewrite IH, count_key_cons.
  pose proof (count_key_nonneg key_func timestamps k) as Hc.
  unfold count_timestamp. case_decide as E.
  - subst k. rewrite lookup_insert_eq. cbn [default].
    generalize dependent (count_key key_func timestamps (key_func t)).
    intros c _ Hc.
    destruct (Z.eqb_spec c 0); destruct (Z.eqb_spec (1 + c) 0);
      try lia; f_equal; unfold id; lia.
  - rewrite lookup_insert_ne by done.
    by rewrite Z.add_0_l.
Qed.

Lemma pair_sorted_keys (counts : list (Z * Z)) :
  StronglySorted pair_le counts -> NoDup (map fst counts) ->
  StronglySorted Z.lt (map fst counts).
Proof.
  induction 1 as [|[k n] counts Hs IH Hall]; intros Hnd; [constructor|].
  cbn [map fst] in *. apply NoDup_cons in Hnd as [Hk Hnd].
  constructor; [by apply IH|].
  apply Forall_forall. intros k' Hk'.
  apply list_elem_of_fmap in Hk' as ([k'' n'] & -> & Hin).
  rewrite Forall_forall in Hall. specialize (Hall _ Hin).
  unfold pair_le in Hall. cbn in *. destruct Hall as [?|[-> _]]; [done|].
  destruct Hk. apply list_elem_of_fmap. by exists (k'', n').
Qed.

Lemma count_by_date_key_sorted timestamps key_func :
  StronglySorted Z.lt
    (map fst (merge_sort pair_le
                (map_to_list (fold_left (count_timestamp key_func) timestamps ∅)))).
Proof.
  apply pair_sorted_keys.
  - apply StronglySorted_merge_sort; apply _.
  - rewrite merge_sort_Permutation. apply NoDup_fst_map_to_list.
Qed.

Lemma count_by_date_key_elem timestamps key_func k n :
  (k, n) ∈ merge_sort pair_le
             (map_to_list (fold_left (count_timestamp key_func) timestamps ∅))
  <-> n = count_key key_func timestamps k /\ 0 < n.
Proof.
  rewrite merge_sort_Permutation, elem_of_map_to_list.
  rewrite fold_count_timestamp, lookup_empty. cbn [default].
  pose proof (count_key_nonneg key_func timestamps k) as Hc.
  destruct (Z.eqb_spec (count_key key_func timestamps k) 0) as [E|E].
  - split; [done|]. lia.
  - rewrite Z.add_0_l. split; [intros [= <-]; lia | by intros [-> _]].
Qed.

(** X9: [get_count_by_date_key] returns a histogram: the keys in strictly
    ascending order, each key that some instant has listed once, with
    the number of instants that have it; when the instants cannot be
    read to their end, the exception comes out. *)
Theorem count_by_date_key_histogram timestamps key_func :
  (exists counts,
     get_count_by_date_key (timestamps, None) key_func = Ok counts
     /\ StronglySorted Z.lt (map fst counts)
     /\ forall k n, (k, n) ∈ counts <->
                    n = count_key key_func timestamps k /\ 0 < n)
  /\ forall e, get_count_by_date_key (timestamps, Some e) key_func = Raise e.
Proof.
  split; [|done]. eexists. split; [reflexivity|]. split.
  - apply count_by_date_key_sorted.
  - apply count_by_date_key_elem.
Qed.

Lemma count_by_date_key_Ok (timestamps : gen datetime) key_func counts :
  get_count_by_date_key timestamps key_func = Ok counts ->
  timestamps.2 = None /\ (counts = [] <-> timestamps.1 = []).
Proof.
  destruct timestamps as [l [e|]]; [discriminate|].
  intros [= <-]. split; [done|]. split.
  - intros H. destruct l as [|t l]; [done|]. exfalso.
    pose proof (count_key_nonneg key_func l (key_func t)) as Hc.
    assert ((key_func t, count_key key_func (t :: l) (key_func t))
            ∈ merge_sort pair_le
                (map_to_list (fold_left (count_timestamp key_func) (t :: l) ∅)))
      as Hin.
    { apply count_by_date_key_elem. split; [done|].
      rewrite count_key_cons, decide_True by done. lia. }
    rewrite H in Hin. by apply elem_of_nil in Hin.
  - cbn [fst]. by intros ->.
Qed.

(** ** The Comments and likes table *)

(** X10: [extract_comments_and_likes] returns "no result" exactly when both
    sections are read to their end and no like lies in the window,
    whatever the number of comments in the window: comments alone never
    give a table. *)
Theorem comments_and_likes_no_result_iff data :
  extract_comments_and_likes data = Ok None <->
  exists comments likes,
    get_list data ["Comment"; "Comments"; "CommentsList"] = Ok comments
    /\ get_list data ["Activity"; "Like List"; "ItemFavoriteList"] = Ok likes
    /\ (get_date_filtered_items (iterate comments)).2 = None
    /\ get_date_filtered_items (iterate likes) = ([], None).
Proof.
  unfold extract_comments_and_likes. split.
  - intros H. bind_inv H comments Hc. bind_inv H comment_counts Hcc.
    bind_inv H likes Hl. bind_inv H likes_given_counts Hlc.
    destruct likes_given_counts; [|discriminate H].
    apply count_by_date_key_Ok in Hcc as [Hcc _], Hlc as [Hlt Hlc].
    exists comments, likes. split; [done|]. split; [done|]. split; [done|].
    destruct (get_date_filtered_items (iterate likes)) as [out tail].
    cbn in Hlt, Hlc. subst tail. f_equal.
    destruct Hlc as [Hlc _]. specialize (Hlc eq_refl). by destruct out.
  - intros (comments & likes & -> & -> & Hc & Hl). cbn.
    destruct (get_date_filtered_items (iterate comments)) as [out tail].
    cbn in Hc. subst tail. rewrite Hl. done.
Qed.

(** A document with a comment in the window and no likes. *)
Example comments_without_likes :
  filtered_count (JObj [profile (JStr "me");
                        ("Comment", JObj [("Comments",
                           JObj [("CommentsList", JArr [dated "2022-06-01 12:06:00"])])])])
                 ["Comment"; "Comments"; "CommentsList"] = Ok 1
  /\ extract_comments_and_likes
       (JObj [profile (JStr "me");
              ("Comment", JObj [("Comments",
                 JObj [("CommentsList", JArr [dated "2022-06-01 12:06:00"])])])])
     = Ok None.
Proof. split; reflexivity. Qed.

(** ** Messages in the summary and in the Direct Messages table *)

Lemma kept_in_window item :
  kept item = (if in_window_item item
               then match item_timestamp item with
                    | Ok t => Some (t, item)
                    | Raise _ => None
                    end
               else None).
Proof.
  unfold kept, in_window_item. destruct (item_timestamp item) as [t|e]; [|done].
  destruct (outside_window t) eqn:Ho.
  - rewrite bool_decide_eq_false_2; [done|]. rewrite <- outside_window_spec.
    congruence.
  - rewrite bool_decide_eq_true_2; [done|]. by apply outside_window_spec.
Qed.

Lemma count_from_kept (test cls : json -> bool) (messages : list json) :
  (forall m from, subscript m "From" = Ok from -> cls m = test from) ->
  forall n a,
    for_each (fun (n : Z) (item : datetime * json) =>
                from ← subscript (snd item) "From";
                Ok (if test from then n + 1 else n))
             (omap kept messages) None n = Ok a ->
    Forall (fun m => in_window_item m ->
                     exists from, subscript m "From" = Ok from) messages
    /\ a = n + Z.of_nat (length (filter (fun m => Is_true (in_window_item m && cls m))
                                        messages)).
Proof.
  intros Hcls. induction messages as [|m messages IH]; intros n a H.
  - cbn in H. injection H as <-. split; [constructor|]. cbn. lia.
  - change (omap kept (m :: messages))
      with (match kept m with
            | Some y => y :: omap kept messages
            | None => omap kept messages
            end) in H.
    rewrite kept_in_window in H. destruct (in_window_item m) eqn:Hw.
    + destruct (item_timestamp m) as [t|e] eqn:Ht;
        [|unfold in_window_item in Hw; by rewrite Ht in Hw].
      cbn [for_each] in H. bind_inv H n' Hn. bind_inv Hn from Hf.
      cbn [snd] in Hf. injection Hn as <-.
      apply IH in H as [Hall ->]. split; [constructor; eauto|].
      pose proof (Hcls _ _ Hf) as Hc. destruct (test from).
      * rewrite filter_cons_True by (cbv beta; by rewrite Hw, Hc).
        cbn [length]. lia.
      * rewrite filter_cons_False by (cbv beta; rewrite Hw, Hc; cbn; tauto).
        lia.
    + apply IH in H as [Hall ->].
      split; [constructor; [rewrite Hw; intros []|done]|].
      by rewrite filter_cons_False by (cbv beta; rewrite Hw; cbn; tauto).
Qed.

Lemma window_count_split (cls : json -> bool) (messages : list json) :
  Z.of_nat (length (filter (fun m => Is_true (in_window_item m && cls m)) messages))
  + Z.of_nat (length (filter (fun m => Is_true (in_window_item m && negb (cls m)))
                             messages))
  = window_count messages.
Proof.
  unfold window_count. induction messages as [|m messages IH]; [done|].
  destruct (in_window_item m) eqn:Hw.
  - rewrite (filter_cons_True (fun item => Is_true (in_window_item item)))
      by (cbv beta; by rewrite Hw).
    destruct (cls m) eqn:Hc.
    + rewrite filter_cons_True by (cbv beta; by rewrite Hw, Hc).
      rewrite filter_cons_False by (cbv beta; rewrite Hw, Hc; cbn; tauto).
      cbn [length]. lia.
    + rewrite filter_cons_False by (cbv beta; rewrite Hw, Hc; cbn; tauto).
      rewrite filter_cons_True by (cbv beta; by rewrite Hw, Hc).
      cbn [length]. lia.
  - rewrite !filter_cons_False by (cbv beta; rewrite Hw; cbn; tauto). done.
Qed.

(** X11: In the summary, every chat message dated in the window is counted
    once, as sent when its sender equals the user name and as received
    otherwise.  Whenever the extractor returns, every message of the chat
    history in the window has a sender; "Messages sent" is the number of
    the messages in the window whose From equals the user name,
    "Messages received" the number of those whose From differs from it;
    the two add up to the number of messages in the window. *)
Theorem summary_messages_partition data er :
  extract_summary_data data = Ok (Some er) ->
  exists user_name history messages,
    get_user_name data = Ok user_name
    /\ get_chat_history data = Ok history
    /\ flatten_chat_history history = Ok (messages, None)
    /\ Forall (fun m => in_window_item m ->
                        exists from, subscript m "From" = Ok from) messages
    /\ [CStr "Messages sent";
        CInt (Z.of_nat (length (filter (fun m => Is_true (in_window_item m
                                                         && sent_by user_name m))
                                       messages)))]
       ∈ rows (data_frame er)
    /\ [CStr "Messages received";
        CInt (Z.of_nat (length (filter (fun m => Is_true (in_window_item m
                                                         && negb (sent_by user_name m)))
                                       messages)))]
       ∈ rows (data_frame er)
    /\ Z.of_nat (length (filter (fun m => Is_true (in_window_item m
                                                  && sent_by user_name m))
                                messages))
       + Z.of_nat (length (filter (fun m => Is_true (in_window_item m
                                                    && negb (sent_by user_name m)))
                                  messages))
       = window_count messages.
Proof.
  intros H. unfold extract_summary_data in H.
  bind_inv H user_name Hu. bind_inv H chat_history Hc.
  bind_inv H flattened Hf. bind_inv H dms Hd.
  bind_inv H sent Hs. bind_inv H received Hr.
  bind_inv H n1 H1. bind_inv H n2 H2. bind_inv H likes Hl.
  bind_inv H n3 H3. bind_inv H n4 H4. bind_inv H n5 H5. bind_inv H n6 H6.
  injection H as <-. cbn [rows data_frame].
  destruct flattened as [messages tail].
  unfold get_date_filtered_items in Hd. cbn [fst snd] in Hd.
  destruct (date_filtered_from messages tail) as [out [e|]] eqn:E;
    [discriminate Hd|].
  injection Hd as <-.
  apply date_filtered_from_no_exception in E as E'. destruct E' as [-> Hall].
  rewrite (date_filtered_from_all_parse _ _ Hall) in E. injection E as <-.
  unfold count_from in Hs, Hr.
  apply (count_from_kept _ (sent_by user_name)) in Hs as [Hfrom ->];
    [|by intros m from Hm; unfold sent_by; rewrite Hm].
  apply (count_from_kept _ (fun m => negb (sent_by user_name m))) in Hr as [_ ->];
    [|by intros m from Hm; unfold sent_by; rewrite Hm].
  rewrite !Z.add_0_l.
  exists user_name, chat_history, messages.
  split; [done|]. split; [done|]. split; [done|]. split; [done|].
  split; [set_solver|]. split; [set_solver|].
  apply window_count_split.
Qed.

Lemma summary_messages_partition_witness :
  exists er user_name history messages,
    extract_summary_data messages_document = Ok (Some er)
    /\ get_user_name messages_document = Ok user_name
    /\ get_chat_history messages_document = Ok history
    /\ flatten_chat_history history = Ok (messages, None)
    /\ Forall (fun m => in_window_item m ->
                        exists from, subscript m "From" = Ok from) messages
    /\ [CStr "Messages sent";
        CInt (Z.of_nat (length (filter (fun m => Is_true (in_window_item m
                                                         && sent_by user_name m))
                                       messages)))]
       ∈ rows (data_frame er)
    /\ [CStr "Messages received";
        CInt (Z.of_nat (length (filter (fun m => Is_true (in_window_item m
                                                         && negb (sent_by user_name m)))
                                       messages)))]
       ∈ rows (data_frame er)
    /\ Z.of_nat (length (filter (fun m => Is_true (in_window_item m
                                                  && sent_by user_name m))
                                messages))
       + Z.of_nat (length (filter (fun m => Is_true (in_window_item m
                                                    && negb (sent_by user_name m)))
                                  messages))
       = window_count messages.
Proof.
  assert (exists er, extract_summary_data messages_document = Ok (Some er))
    as [er E] by (eexists; reflexivity).
  destruct (summary_messages_partition messages_document er E)
    as (user_name & history & messages & H).
  exists er, user_name, history, messages. split; [exact E | exact H].
Defined.

(** Of the four messages of the example, one is counted as sent and two
    as received; the message sent before the window is not counted. *)
Example summary_messages_counted :
  exists er, extract_summary_data messages_document = Ok (Some er)
             /\ [CStr "Messages sent"; CInt 1] ∈ rows (data_frame er)
             /\ [CStr "Messages received"; CInt 2] ∈ rows (data_frame er).
Proof.
  eexists. split; [reflexivity|]. cbn [rows data_frame]. split; set_solver.
Qed.

Lemma direct_messages_rows items : forall tail st table st' table',
  for_each direct_messages_body items tail (st, table) = Ok (st', table') ->
  tail = None
  /\ exists new_rows,
       table' = table ++ new_rows
       /\ Forall2 (fun item row =>
                     exists anon_id sent,
                       item_timestamp item = Ok sent
                       /\ row = [CInt anon_id; CStr (strftime_minute sent)])
                  items new_rows.
Proof.
  induction items as [|item items IH]; intros tail st table st' table' H.
  - cbn in H. destruct tail; [done|]. injection H as <- <-.
    split; [done|]. exists []. rewrite app_nil_r. by split; [|constructor].
  - cbn [for_each] in H. bind_inv H acc Hacc. destruct acc as [st1 table1].
    unfold direct_messages_body in Hacc.
    bind_inv Hacc from Hfrom. bind_inv Hacc k Hk.
    destruct (anon_ids_get st k) as [anon_id st2] eqn:Eget.
    bind_inv Hacc sent Hsent. injection Hacc as <- <-.
    apply IH in H as (-> & new_rows & -> & Hrows).
    split; [done|].
    exists ([CInt anon_id; CStr (strftime_minute sent)] :: new_rows).
    split; [by rewrite <- app_assoc|]. constructor; eauto.
Qed.

(** X12: The Direct Messages table has one row per message of the chat
    history, in the order of the history (thread after thread), each
    with the minute of the Date of its message; no message is left out,
    whatever its date. *)
Theorem direct_messages_one_row_per_message data er :
  extract_direct_messages data = Ok (Some er) ->
  exists messages,
    chat_messages data = Ok (messages, None)
    /\ length (rows (data_frame er)) = length messages
    /\ Forall2 (fun item row =>
                  exists anon_id sent,
                    item_timestamp item = Ok sent
                    /\ row = [CInt anon_id; CStr (strftime_minute sent)])
               messages (rows (data_frame er)).
Proof.
  intros H. unfold extract_direct_messages in H.
  bind_inv H history Hh. bind_inv H user_name Hu. bind_inv H own Ho.
  bind_inv H items Hi. bind_inv H acc Hloop. destruct acc as [st' table].
  injection H as <-. cbn [rows data_frame].
  destruct items as [messages tail]. cbn [fst snd] in Hloop.
  apply direct_messages_rows in Hloop as (-> & new_rows & -> & Hrows).
  exists messages. split; [unfold chat_messages; by rewrite Hh|].
  cbn [app]. split; [|done]. symmetry. by eapply Forall2_length.
Qed.

Lemma direct_messages_one_row_per_message_witness :
  exists er messages,
    extract_direct_messages early_document = Ok (Some er)
    /\ chat_messages early_document = Ok (messages, None)
    /\ length (rows (data_frame er)) = length messages
    /\ Forall2 (fun item row =>
                  exists anon_id sent,
                    item_timestamp item = Ok sent
                    /\ row = [CInt anon_id; CStr (strftime_minute sent)])
               messages (rows (data_frame er)).
Proof.
  assert (exists er, extract_direct_messages early_document = Ok (Some er))
    as [er E] by (eexists; reflexivity).
  destruct (direct_messages_one_row_per_message early_document er E)
    as (messages & H).
  exists er, messages. split; [exact E | exact H].
Defined.

(** ** The extractors taken out of the orchestrator *)

Lemma minute_stamp_loop items : forall tail timestamps out,
  for_each minute_stamp_body items tail timestamps = Ok out ->
  tail = None
  /\ exists new,
       out = timestamps ++ new
       /\ Forall2 (fun item text =>
                     exists posted, item_timestamp item = Ok posted
                                    /\ text = strftime_minute posted)
                  items new.
Proof.
  induction items as [|item items IH]; intros tail timestamps out H.
  - cbn in H. destruct tail; [done|]. injection H as <-.
    split; [done|]. exists []. rewrite app_nil_r. by split; [|constructor].
  - cbn [for_each] in H. bind_inv H acc Hacc.
    unfold minute_stamp_body in Hacc. bind_inv Hacc posted Hp.
    injection Hacc as <-.
    apply IH in H as (-> & new & -> & Hnew). split; [done|].
    exists (strftime_minute posted :: new).
    split; [by rewrite <- app_assoc|]. constructor; eauto.
Qed.

Lemma minute_stamp_rows (section : json) timestamps :
  for_each minute_stamp_body (iterate section).1 (iterate section).2 []
  = Ok timestamps ->
  (iterate section).2 = None
  /\ Forall2 (fun item row =>
                exists posted, item_timestamp item = Ok posted
                               /\ row = [CStr (strftime_minute posted)])
             (iterate section).1 (map (fun t => [CStr t]) timestamps).
Proof.
  intros H. apply minute_stamp_loop in H as (Ht & new & -> & Hnew).
  split; [done|]. cbn [app]. apply Forall2_fmap_r.
  eapply Forall2_impl; [exact Hnew|]. intros item text (posted & ? & ->). eauto.
Qed.

(** X13: [extract_comment_activity] and [extract_videos_liked] return "no
    result" exactly when their section is missing; otherwise the table
    has one row per item of the section, in order, with the minute of
    its Date, and the window filter is not applied. *)
Theorem removed_extractors_tables data :
  (extract_comment_activity data = Ok None <->
   get_in data ["Comment"; "Comments"; "CommentsList"] = Ok JNull)
  /\ (extract_videos_liked data = Ok None <->
      get_in data ["Activity"; "Favorite Videos"; "FavoriteVideoList"] = Ok JNull)
  /\ (forall er, extract_comment_activity data = Ok (Some er) ->
        exists comments,
          get_in data ["Comment"; "Comments"; "CommentsList"] = Ok comments
          /\ (iterate comments).2 = None
          /\ id_ er = "tiktok_comment_activity"
          /\ Forall2 (fun item row =>
                        exists posted, item_timestamp item = Ok posted
                                       /\ row = [CStr (strftime_minute posted)])
                     (iterate comments).1 (rows (data_frame er)))
  /\ (forall er, extract_videos_liked data = Ok (Some er) ->
        exists favorite_videos,
          get_in data ["Activity"; "Favorite Videos"; "FavoriteVideoList"]
          = Ok favorite_videos
          /\ (iterate favorite_videos).2 = None
          /\ id_ er = "tiktok_videos_liked"
          /\ Forall2 (fun item row =>
                        exists posted, item_timestamp item = Ok posted
                                       /\ row = [CStr (strftime_minute posted)])
                     (iterate favorite_videos).1 (rows (data_frame er))).
Proof.
  unfold extract_comment_activity, extract_videos_liked.
  split; [|split; [|split]].
  - split.
    + intros H. bind_inv H comments Hc.
      destruct comments; try done; bind_inv H timestamps Ht; discriminate H.
    + by intros ->.
  - split.
    + intros H. bind_inv H favorite_videos Hc.
      destruct favorite_videos; try done; bind_inv H liked Ht; discriminate H.
    + by intros ->.
  - intros er H. bind_inv H comments Hc. exists comments.
    destruct comments; try discriminate H;
      bind_inv H timestamps Ht; injection H as <-;
      apply minute_stamp_rows in Ht as [Ht Hrows]; done.
  - intros er H. bind_inv H favorite_videos Hc. exists favorite_videos.
    destruct favorite_videos; try discriminate H;
      bind_inv H liked Ht; injection H as <-;
      apply minute_stamp_rows in Ht as [Ht Hrows]; done.
Qed.

(** A comment made before the window is listed by the removed extractor. *)
Example comment_activity_unfiltered :
  exists er,
    extract_comment_activity
      (JObj [profile (JStr "me");
             ("Comment", JObj [("Comments",
                JObj [("CommentsList", JArr [dated "2019-03-05 08:30:59"])])])])
    = Ok (Some er)
    /\ rows (data_frame er) = [[CStr "2019-03-05 08:30"]].
Proof. eexists. split; reflexivity. Qed.

(** ** More on the orchestrator *)

Lemma extractors_order_NoDup : NoDup extractors_order.
Proof. by apply (bool_decide_unpack _). Qed.

(** X14: The tables that the orchestrator returns have distinct ids, all among
    the ids of the six extractors it runs; the tables of the removed
    extractors ("tiktok_comment_activity", "tiktok_videos_liked") are
    never among them. *)
Theorem orchestrator_table_ids file_ tables :
  extract_tiktok_data file_ = Ok (Some tables) ->
  NoDup (map id_ tables)
  /\ Forall (fun table => id_ table ∈ extractors_order) tables
  /\ ("tiktok_comment_activity" ∉ map id_ tables)
  /\ ("tiktok_videos_liked" ∉ map id_ tables).
Proof.
  intros H. apply extract_tiktok_data_inv in H as [[? _]|H]; [done|].
  destruct H as (data & docs & outs & Hd & Houts & [= ->]).
  apply extractors_outputs in Houts
    as (summary & o2 & o3 & o4 & o5 & o6 & -> & Hid & Hsub).
  assert (map id_ (omap (fun table => table) [Some summary; o2; o3; o4; o5; o6])
          `sublist_of` extractors_order) as Hall.
  { cbn [omap list_omap map]. rewrite Hid. by apply sublist_skip. }
  split; [|split; [|split]].
  - eapply sublist_NoDup; [apply extractors_order_NoDup | exact Hall].
  - apply Forall_forall. intros table Hin.
    eapply elem_of_sublist; [|exact Hall]. apply list_elem_of_fmap. eauto.
  - intros Hin. eapply elem_of_sublist in Hin; [|exact Hall].
    revert Hin. by apply (bool_decide_unpack _).
  - intros Hin. eapply elem_of_sublist in Hin; [|exact Hall].
    revert Hin. by apply (bool_decide_unpack _).
Qed.

Lemma orchestrator_table_ids_witness :
  exists tables,
    extract_tiktok_data (json_file_of full_document) = Ok (Some tables)
    /\ NoDup (map id_ tables)
    /\ Forall (fun table => id_ table ∈ extractors_order) tables
    /\ ("tiktok_comment_activity" ∉ map id_ tables)
    /\ ("tiktok_videos_liked" ∉ map id_ tables).
Proof.
  assert (exists tables,
            extract_tiktok_data (json_file_of full_document)
            = Ok (Some tables)) as [tables E] by (eexists; reflexivity).
  exists tables. split; [exact E|].
  exact (orchestrator_table_ids (json_file_of full_document) tables E).
Defined.

Lemma mapM_first_failure {A B} (f : A -> res B) before failing after e :
  Forall (fun x => exists y, f x = Ok y) before ->
  f failing = Raise e ->
  mapM f (before ++ failing :: after) = Raise e.
Proof.
  intros Hb Hf. induction Hb as [|x before [y Hy] _ IH].
  - cbn. by rewrite Hf.
  - cbn [app]. change (mapM f (x :: before ++ failing :: after))
      with (y' ← f x; k ← mapM f (before ++ failing :: after); mret (y' :: k)).
    by rewrite Hy, IH.
Qed.

(** X15: The orchestrator has no result when an extractor raises: the
    exception of the first extractor in the list that raises on the
    document comes out of [extract_tiktok_data], the tables of the
    extractors before it are lost and those after it are not run. *)
Theorem orchestrator_first_failure file_ data docs before failing after e :
  get_json_data_from_file file_ = Ok (data :: docs) ->
  extractors = before ++ failing :: after ->
  Forall (fun extractor_ : extractor => exists o, extractor_ data = Ok o) before ->
  failing data = Raise e ->
  extract_tiktok_data file_ = Raise e.
Proof.
  intros Hd He Hb Hf. unfold extract_tiktok_data. rewrite Hd, He.
  cbn [mbind res_bind].
  by rewrite (mapM_first_failure (fun extractor_ : extractor => extractor_ data)
                before failing after e Hb Hf).
Qed.

Lemma orchestrator_first_failure_witness :
  extract_tiktok_data
    (json_file_of (posts_document [video "2022-06-01 15:00:01" (JStr "None")]))
  = Raise ValueError.
Proof.
  apply (orchestrator_first_failure _
           (posts_document [video "2022-06-01 15:00:01" (JStr "None")]) []
           [extract_summary_data] extract_video_posts
           [extract_comments_and_likes; extract_videos_viewed;
            extract_session_info; extract_direct_messages] ValueError).
  - reflexivity.
  - reflexivity.
  - apply Forall_cons. split; [|by apply Forall_nil]. eexists. reflexivity.
  - reflexivity.
Defined.

(** ** More on sessions *)

Lemma sorted_last_bounds (g : list datetime) : forall t,
  StronglySorted Z.le (t :: g) ->
  List.last (t :: g) t ∈ t :: g
  /\ forall x, x ∈ t :: g -> t <= x <= List.last (t :: g) t.
Proof.
  induction g as [|c g IH]; intros t Hs.
  - cbn. split; [by left|]. intros x ->%list_elem_of_singleton. lia.
  - apply StronglySorted_cons in Hs as [Hall Hs].
    destruct (IH c Hs) as [Hin Hb].
    rewrite last_cons_cons. split; [by right|].
    assert (t <= c) as Htc.
    { rewrite Forall_forall in Hall. apply Hall. by left. }
    intros x [->|Hx]%elem_of_cons.
    + specialize (Hb c (ltac:(by left))). lia.
    + specialize (Hb x Hx). lia.
Qed.

Lemma sorted_groups (groups : list (list datetime)) :
  StronglySorted Z.le (concat groups) -> Forall (StronglySorted Z.le) groups.
Proof.
  induction groups as [|g groups IH]; [constructor|].
  cbn [concat]. intros H. constructor.
  - by apply StronglySorted_app_1_l in H.
  - apply IH. by apply StronglySorted_app_1_r in H.
Qed.

Lemma length_groups (groups : list (list datetime)) :
  Forall (fun g => g <> []) groups ->
  (length (omap session_of groups) <= length (concat groups))%nat.
Proof.
  induction 1 as [|g groups Hg _ IH]; [done|].
  destruct g as [|t g]; [done|]. cbn. rewrite length_app. lia.
Qed.

Lemma session_of_group (g : list datetime) s :
  StronglySorted Z.le g -> session_of g = Some s ->
  s.1.1 ∈ g /\ s.1.2 ∈ g /\ s.2 = s.1.2 - s.1.1
  /\ forall x, x ∈ g -> s.1.1 <= x <= s.1.2.
Proof.
  destruct g as [|t g]; [done|]. intros Hs. unfold session_of. cbv zeta.
  intros [= <-]. cbn [fst snd].
  destruct (sorted_last_bounds g t Hs) as [Hin Hb].
  split; [by left|]. split; [done|]. split; [done|]. exact Hb.
Qed.

(** X16: The sessions cover the instants: every session starts and ends at
    one of the instants, with start <= end and the duration end - start
    (never negative); every instant lies within one of the sessions; and
    there are no more sessions than instants. *)
Theorem sessions_cover_instants (timestamps : list datetime) :
  (forall start end_ duration,
      (start, end_, duration) ∈ get_sessions timestamps ->
      start ∈ timestamps /\ end_ ∈ timestamps
      /\ start <= end_ /\ duration = end_ - start)
  /\ (forall t, t ∈ timestamps ->
        exists start end_ duration,
          (start, end_, duration) ∈ get_sessions timestamps
          /\ start <= t <= end_)
  /\ (length (get_sessions timestamps) <= length timestamps)%nat.
Proof.
  rewrite get_sessions_runs.
  pose proof (StronglySorted_merge_sort Z.le timestamps) as Hs.
  pose proof (merge_sort_Permutation Z.le timestamps) as Hp.
  destruct (merge_sort Z.le timestamps) as [|t0 rest].
  { split; [|split]; [intros ? ? ? H; by apply elem_of_nil in H | | cbn; lia].
    intros t Ht. rewrite <- Hp in Ht. by apply elem_of_nil in Ht. }
  pose proof (split_runs_concat t0 rest) as Hc.
  pose proof (split_runs_nonempty t0 rest) as Hne.
  remember (split_runs t0 rest) as groups eqn:Hgroups. clear Hgroups.
  assert (StronglySorted Z.le (concat groups)) as Hs' by (by rewrite Hc).
  assert (concat groups ≡ₚ timestamps) as Hp' by (by rewrite Hc).
  clear Hs Hp Hc. rename Hs' into Hs, Hp' into Hp.
  pose proof (sorted_groups _ Hs) as Hsg. rewrite Forall_forall in Hsg.
  assert (forall g x, g ∈ groups -> x ∈ g -> x ∈ timestamps) as Hin.
  { intros g x Hg Hx. rewrite <- Hp. apply list_elem_of_In, in_concat.
    exists g. by rewrite <- !list_elem_of_In. }
  split; [|split].
  - intros start end_ duration (g & Hg & Hsess)%list_elem_of_omap.
    destruct (session_of_group g _ (Hsg g Hg) Hsess) as (H1 & H2 & H3 & H4).
    cbn [fst snd] in *. split; [by eapply Hin|]. split; [by eapply Hin|].
    split; [|done]. specialize (H4 end_ H2). lia.
  - intros t Ht. rewrite <- Hp in Ht.
    apply list_elem_of_In, in_concat in Ht as (g & Hg & Hx).
    rewrite <- !list_elem_of_In in *.
    destruct (session_of g) as [[[start end_] duration]|] eqn:Hsess.
    + exists start, end_, duration. split.
      * apply list_elem_of_omap. eauto.
      * destruct (session_of_group g _ (Hsg g Hg) Hsess) as (_ & _ & _ & H4).
        by apply (H4 t).
    + destruct g; [by apply elem_of_nil in Hx | done].
  - rewrite <- (Permutation_length Hp). by apply length_groups.
Qed.

(** ** More on the donation flow *)

Lemma responses_ind (P : list payload -> Prop) :
  (forall responses,
      (forall shorter, (length shorter < length responses)%nat -> P shorter) ->
      P responses) ->
  forall responses, P responses.
Proof.
  intros H responses.
  induction responses as [responses IH] using (induction_ltof1 _ (@length payload)).
  apply H. intros shorter Hlt. by apply IH.
Qed.

Lemma elem_of_yield_then c0 c r :
  c0 ∈ yielded (yield_then c r) <-> c0 = c \/ c0 ∈ yielded r.
Proof. apply elem_of_cons. Qed.

Lemma elem_of_stop c0 s meta_data_ : c0 ∈ yielded (stop s meta_data_) <-> False.
Proof. apply elem_of_nil. Qed.

Lemma donate_is_no_page key value platform body_ progress_ :
  CommandSystemDonate key value = render_donation_page platform body_ progress_
  -> False.
Proof. discriminate. Qed.

Lemma logged_refl platform meta_data_ : logged platform meta_data_ meta_data_.
Proof. exists []. by rewrite app_nil_r. Qed.

Lemma logged_log platform meta_data_ message meta_data' :
  logged platform (log platform meta_data_ message) meta_data' ->
  logged platform meta_data_ meta_data'.
Proof.
  intros (new & -> & Hnew). unfold log. rewrite <- app_assoc.
  eexists. split; [reflexivity|]. constructor; [|done].
  split; [done|]. by exists message.
Qed.

(** Finds an element in the known front of a list of responses. *)
Ltac elem_of_responses :=
  first [assumption
        | apply elem_of_cons; first [by left | right; elem_of_responses]].

Section Flow.

Variable platform : string.
Variable mime_types : string.
Variable extractor_ : string -> res (option (list ExtractionResult)).
Variable session_id : string.

(** Splits a run of [process] into the cases of one turn of its loop;
    the responses left for the next turn stay a variable. *)
Ltac process_turn responses :=
  let e := fresh "e" in
  let Hio := fresh "Hio" in
  let Hinv := fresh "Hinv" in
  destruct responses as [|[?value| | |?value|] responses]; cbn [process];
  [| destruct (extractor_ value) as [[?tables|]|e] eqn:?Hextract;
     [ destruct responses as [|[?| | |?|] responses]; cbn [process];
       [| | | | destruct responses as [|? responses]; cbn [process] |]
     | destruct responses as [|[?| | |?|] responses];
       cbn [process is_PayloadTrue]
     | destruct (is_IOError e) eqn:Hio;
       [ destruct responses as [|? responses]
       | destruct (is_InvalidFileError e) eqn:Hinv;
         [ destruct responses as [|[?| | |?|] responses];
           cbn [process is_PayloadTrue] |] ] ]
   | | | |].

Lemma donated_with_consent responses : forall meta_data_ key value,
  CommandSystemDonate key value
  ∈ yielded (process platform mime_types extractor_ session_id responses meta_data_) ->
  key = session_id +:+ "-" +:+ platform /\ PayloadJSON value ∈ responses.
Proof.
  induction responses as [responses IH] using responses_ind.
  intros meta_data_ key v.
  assert (forall shorter md,
            (length shorter < length responses)%nat ->
            CommandSystemDonate key v
            ∈ yielded (process platform mime_types extractor_ session_id shorter md) ->
            key = session_id +:+ "-" +:+ platform /\ PayloadJSON v ∈ shorter)
    as IH' by (intros; by eapply IH).
  clear IH.
  process_turn responses; intros H;
    repeat (apply elem_of_yield_then in H as [H|H];
            [first [by apply donate_is_no_page in H
                   | injection H as -> ->; split; [reflexivity | elem_of_responses]]|]);
    try (by apply elem_of_stop in H);
    (apply IH' in H; [destruct H as [-> H]; split; [reflexivity | elem_of_responses]
                     | cbn [length]; lia]).
Qed.

Lemma lookup_yield_then c r n :
  yielded (yield_then c r) !! S n = yielded r !! n.
Proof. reflexivity. Qed.

Lemma lookup_yield_then_0 c r c' :
  yielded (yield_then c r) !! 0%nat = Some c' -> c = c'.
Proof. by intros [= ->]. Qed.

Lemma consented_shift p responses c r n key value :
  consented platform mime_types extractor_ session_id responses r n key value ->
  consented platform mime_types extractor_ session_id
            (p :: responses) (yield_then c r) (S n) key value.
Proof.
  intros (i & file_ & tables & log_ & -> & H1 & H2 & H3 & H4 & H5 & ->).
  by exists (S i), file_, tables, log_.
Qed.

(** X17: The flow donates only what answered a consent form.  When the
    command at position [n] of a run of [process] is a donation, its key
    is [session_id-platform]; two places before it the run prompts for a
    file and is answered by a path on which the extractor returns
    tables; one place before it the run shows the consent form for these
    tables, and the response to that form is the [PayloadJSON] whose
    value is donated. *)
Theorem flow_donates_only_with_consent responses : forall meta_data_ n key value,
  yielded (process platform mime_types extractor_ session_id responses meta_data_)
    !! n = Some (CommandSystemDonate key value) ->
  exists i file_ tables log_,
    n = S (S i)
    /\ yielded (process platform mime_types extractor_ session_id
                        responses meta_data_) !! i
       = Some (file_prompt platform mime_types)
    /\ responses !! i = Some (PayloadString file_)
    /\ extractor_ file_ = Ok (Some tables)
    /\ yielded (process platform mime_types extractor_ session_id
                        responses meta_data_) !! S i
       = Some (consent_prompt platform tables log_)
    /\ responses !! S i = Some (PayloadJSON value)
    /\ key = session_id +:+ "-" +:+ platform.
Proof.
  induction responses as [responses IH] using responses_ind.
  intros meta_data_ n key v.
  assert (forall shorter md m,
            (length shorter < length responses)%nat ->
            yielded (process platform mime_types extractor_ session_id shorter md)
              !! m = Some (CommandSystemDonate key v) ->
            consented platform mime_types extractor_ session_id shorter
              (process platform mime_types extractor_ session_id shorter md)
              m key v)
    as IH' by (intros; by eapply IH).
  clear IH.
  change (yielded (process platform mime_types extractor_ session_id
                           responses meta_data_) !! n
          = Some (CommandSystemDonate key v) ->
          consented platform mime_types extractor_ session_id responses
            (process platform mime_types extractor_ session_id
                     responses meta_data_) n key v).
  process_turn responses; intros H;
    repeat match type of H with
           | yielded (yield_then _ _) !! _ = _ =>
               destruct n as [|n];
               [ apply lookup_yield_then_0 in H;
                 first [ by apply eq_sym, donate_is_no_page in H
                       | injection H as <- <-;
                         by eexists 0%nat, _, _, _ ]
               | rewrite lookup_yield_then in H ]
           end;
    try (by cbn [yielded stop] in H);
    (apply IH' in H; [by repeat apply consented_shift | cbn [length]; lia]).
Qed.

(** X18: The only exceptions that leave the flow are those of the extractor:
    when a run of [process] ends in an exception, the extractor raised
    it on a file that the user chose, and it is neither an [IOError] nor
    an [InvalidFileError]. *)
Theorem flow_raises_only_extractor_exceptions responses : forall meta_data_ e,
  result (process platform mime_types extractor_ session_id responses meta_data_)
  = Raised e ->
  exists value,
    PayloadString value ∈ responses /\ extractor_ value = Raise e
    /\ is_IOError e = false /\ is_InvalidFileError e = false.
Proof.
  induction responses as [responses IH] using responses_ind.
  intros meta_data_ e0.
  assert (forall shorter md,
            (length shorter < length responses)%nat ->
            result (process platform mime_types extractor_ session_id shorter md)
            = Raised e0 ->
            exists value,
              PayloadString value ∈ shorter /\ extractor_ value = Raise e0
              /\ is_IOError e0 = false /\ is_InvalidFileError e0 = false)
    as IH' by (intros; by eapply IH).
  clear IH.
  process_turn responses; cbn [result yield_then stop]; intros H;
    try discriminate H;
    try (injection H as ->; eexists; split; [by left | done]);
    (apply IH' in H; [destruct H as (value' & H & ?); exists value';
                      split; [elem_of_responses | done]
                     | cbn [length]; lia]).
Qed.

(** X19: The log only grows, by debug entries that start with the platform
    name. *)
Theorem flow_log_grows responses : forall meta_data_,
  logged platform meta_data_
    (meta_data (process platform mime_types extractor_ session_id responses meta_data_)).
Proof.
  induction responses as [responses IH] using responses_ind.
  intros meta_data_.
  assert (forall shorter md,
            (length shorter < length responses)%nat ->
            logged platform md
              (meta_data (process platform mime_types extractor_ session_id shorter md)))
    as IH' by (intros; by eapply IH).
  clear IH.
  process_turn responses; cbn [meta_data yield_then stop];
    repeat first [apply logged_refl
                 | apply IH'; cbn [length]; lia
                 | eapply logged_log].
Qed.

(** X20: Commands and responses alternate: a run never yields more than one
    command more than the responses it was given, and it is suspended,
    waiting for a response, exactly when it has used up all of them. *)
Theorem flow_alternates responses : forall meta_data_,
  let r := process platform mime_types extractor_ session_id responses meta_data_ in
  (result r = Suspended -> length (yielded r) = S (length responses))
  /\ (result r <> Suspended -> (length (yielded r) <= length responses)%nat).
Proof.
  induction responses as [responses IH] using responses_ind.
  intros meta_data_.
  assert (forall shorter md,
            (length shorter < length responses)%nat ->
            let r := process platform mime_types extractor_ session_id shorter md in
            (result r = Suspended -> length (yielded r) = S (length shorter))
            /\ (result r <> Suspended -> (length (yielded r) <= length shorter)%nat))
    as IH' by (intros; by eapply IH).
  clear IH. cbv zeta in *.
  process_turn responses; cbn [result yielded yield_then stop length];
    try (split; intros H; [try discriminate H; lia | try congruence; lia]);
    match goal with
    | |- context [process _ _ _ _ ?shorter ?md] =>
        destruct (IH' shorter md ltac:(cbn [length]; lia)) as [H1 H2];
        split; intros H; [specialize (H1 H) | specialize (H2 H)]; lia
    end.
Qed.

(** X21: An exception of the extractor that is neither an [IOError] nor an
    [InvalidFileError] is not handled: the flow ends in that exception
    right after the file was chosen, with nothing shown to the user. *)
Theorem extractor_exception_leaves_flow value e rest meta_data_ :
  extractor_ value = Raise e ->
  is_IOError e = false -> is_InvalidFileError e = false ->
  process platform mime_types extractor_ session_id
          (PayloadString value :: rest) meta_data_
  = {| yielded := [file_prompt platform mime_types];
       result := Raised e;
       meta_data := log platform meta_data_ "extracting file" |}.
Proof. intros He Hio Hinv. cbn [process]. by rewrite He, Hio, Hinv. Qed.

(** X22: When the extractor returns no tables (the reader found no document),
    the flow shows the retry confirmation without logging anything more;
    if the user confirms, the loop starts again with the file prompt,
    otherwise the flow returns. *)
Theorem empty_extraction_can_be_retried value answer rest meta_data_ :
  extractor_ value = Ok None ->
  process platform mime_types extractor_ session_id
          (PayloadString value :: answer :: rest) meta_data_
  = yield_then (file_prompt platform mime_types)
      (yield_then (retry_prompt platform)
         (if is_PayloadTrue answer
          then process platform mime_types extractor_ session_id rest
                 (log platform meta_data_ "extracting file")
          else stop Returned (log platform meta_data_ "extracting file"))).
Proof. intros He. cbn [process]. by rewrite He. Qed.

(** X23: A complete donation: the file is chosen, the consent form shows the
    extracted tables and the log so far, the user's answer is donated
    under the key [session_id-platform], and the loop then asks for a
    file again; the flow returns only when that prompt is answered by
    something else than a file. *)
Theorem donation_turn_then_skip value tables consented ack skip rest meta_data_ :
  extractor_ value = Ok (Some tables) ->
  (forall path, skip <> PayloadString path) ->
  process platform mime_types extractor_ session_id
    (PayloadString value :: PayloadJSON consented :: ack :: skip :: rest)
    meta_data_
  = {| yielded :=
         [file_prompt platform mime_types;
          consent_prompt platform tables
            (meta_data_
             ++ [("debug", platform +:+ ": extracting file");
                 ("debug", platform +:+ ": extraction successful, go to consent form")]);
          donate (session_id +:+ "-" +:+ platform) consented;
          file_prompt platform mime_types];
       result := Returned;
       meta_data :=
         meta_data_
         ++ [("debug", platform +:+ ": extracting file");
             ("debug", platform +:+ ": extraction successful, go to consent form");
             ("debug", platform +:+ ": prompt consent");
             ("debug", platform +:+ ": donate consent data");
             ("debug", platform +:+ ": skip to next step")] |}.
Proof.
  intros He Hskip. cbn [process]. rewrite He.
  destruct skip as [path| | | |]; [by destruct (Hskip path)| | | |];
    cbn [process yield_then stop yielded result meta_data]; unfold log;
    rewrite <- !app_assoc; reflexivity.
Qed.

End Flow.

(** X24: The script as a whole donates the tracking message first, whatever
    the responses; any other donation it makes has the key
    [session_id-TikTok] and carries the value of a [PayloadJSON]
    response. *)
Theorem script_donations fs session_id responses :
  head (yielded (Script.process fs session_id responses))
  = Some (CommandSystemDonate (session_id +:+ "-tracking") tracking_message)
  /\ forall key value,
       CommandSystemDonate key value
       ∈ tail (yielded (Script.process fs session_id responses)) ->
       key = session_id +:+ "-TikTok" /\ PayloadJSON value ∈ responses.
Proof.
  split; [done|]. intros key value.
  unfold Script.process. cbn [yielded yield_then tail].
  destruct responses as [|r responses]; [by intros H%elem_of_nil|].
  unfold tik_tok_data_donation. intros H.
  apply donated_with_consent in H as [-> H]. split; [done|]. by right.
Qed.

Lemma flow_donates_only_with_consent_witness :
  yielded (tik_tok_data_donation example_fs "session"
             [PayloadString "export.json"; PayloadJSON "[]"; PayloadVoid])
    !! 2%nat = Some (CommandSystemDonate "session-TikTok" "[]")
  /\ exists i file_ tables log_,
       2%nat = S (S i)
       /\ yielded (tik_tok_data_donation example_fs "session"
                     [PayloadString "export.json"; PayloadJSON "[]"; PayloadVoid])
            !! i
          = Some (file_prompt "TikTok" "application/zip, text/plain, application/json")
       /\ [PayloadString "export.json"; PayloadJSON "[]"; PayloadVoid] !! i
          = Some (PayloadString file_)
       /\ extract_tiktok_data (example_fs file_) = Ok (Some tables)
       /\ yielded (tik_tok_data_donation example_fs "session"
                     [PayloadString "export.json"; PayloadJSON "[]"; PayloadVoid])
            !! S i
          = Some (consent_prompt "TikTok" tables log_)
       /\ [PayloadString "export.json"; PayloadJSON "[]"; PayloadVoid] !! S i
          = Some (PayloadJSON "[]")
       /\ "session-TikTok" = "session" +:+ "-" +:+ "TikTok".
Proof.
  assert (yielded (tik_tok_data_donation example_fs "session"
                     [PayloadString "export.json"; PayloadJSON "[]"; PayloadVoid])
            !! 2%nat = Some (CommandSystemDonate "session-TikTok" "[]")) as H
    by reflexivity.
  split; [exact H|].
  exact (flow_donates_only_with_consent
           "TikTok" "application/zip, text/plain, application/json"
           (fun path => extract_tiktok_data (example_fs path)) "session"
           [PayloadString "export.json"; PayloadJSON "[]"; PayloadVoid] []
           2%nat "session-TikTok" "[]" H).
Defined.

Lemma flow_raises_only_extractor_exceptions_witness :
  result (tik_tok_data_donation example_fs "session"
            [PayloadString "garbage.txt"; PayloadTrue]) = Raised BadZipFile
  /\ exists value,
       PayloadString value ∈ [PayloadString "garbage.txt"; PayloadTrue]
       /\ extract_tiktok_data (example_fs value) = Raise BadZipFile
       /\ is_IOError BadZipFile = false /\ is_InvalidFileError BadZipFile = false.
Proof.
  split; [reflexivity|].
  apply (flow_raises_only_extractor_exceptions
           "TikTok" "application/zip, text/plain, application/json"
           (fun path => extract_tiktok_data (example_fs path)) "session"
           [PayloadString "garbage.txt"; PayloadTrue] []).
  reflexivity.
Defined.

Lemma extractor_exception_leaves_flow_witness :
  tik_tok_data_donation likes_none_fs "session"
    [PayloadString "export.json"; PayloadTrue]
  = {| yielded := [file_prompt "TikTok" "application/zip, text/plain, application/json"];
       result := Raised ValueError;
       meta_data := [("debug", "TikTok: extracting file")] |}.
Proof.
  apply (extractor_exception_leaves_flow
           "TikTok" "application/zip, text/plain, application/json"
           (fun path => extract_tiktok_data (likes_none_fs path)) "session"
           "export.json" ValueError [PayloadTrue] []); reflexivity.
Defined.

Lemma empty_extraction_can_be_retried_witness :
  extract_tiktok_data (empty_archive_fs "export.zip") = Ok None
  /\ tik_tok_data_donation empty_archive_fs "session"
       [PayloadString "export.zip"; PayloadTrue; PayloadFalse]
     = yield_then (file_prompt "TikTok" "application/zip, text/plain, application/json")
         (yield_then (retry_prompt "TikTok")
            (process "TikTok" "application/zip, text/plain, application/json"
               (fun path => extract_tiktok_data (empty_archive_fs path)) "session"
               [PayloadFalse] [("debug", "TikTok: extracting file")])).
Proof.
  split; [reflexivity|].
  apply (empty_extraction_can_be_retried
           "TikTok" "application/zip, text/plain, application/json"
           (fun path => extract_tiktok_data (empty_archive_fs path)) "session"
           "export.zip" PayloadTrue [PayloadFalse] []).
  reflexivity.
Defined.

Lemma donation_turn_then_skip_witness :
  exists tables,
    extract_tiktok_data (example_fs "export.json") = Ok (Some tables)
    /\ tik_tok_data_donation example_fs "session"
         [PayloadString "export.json"; PayloadJSON "[]"; PayloadVoid; PayloadFalse]
       = {| yielded :=
              [file_prompt "TikTok" "application/zip, text/plain, application/json";
               consent_prompt "TikTok" tables
                 ([] ++ [("debug", "TikTok" +:+ ": extracting file");
                         ("debug", "TikTok" +:+ ": extraction successful, go to consent form")]);
               donate ("session" +:+ "-" +:+ "TikTok") "[]";
               file_prompt "TikTok" "application/zip, text/plain, application/json"];
            result := Returned;
            meta_data :=
              [] ++ [("debug", "TikTok" +:+ ": extracting file");
                     ("debug", "TikTok" +:+ ": extraction successful, go to consent form");
                     ("debug", "TikTok" +:+ ": prompt consent");
                     ("debug", "TikTok" +:+ ": donate consent data");
                     ("debug", "TikTok" +:+ ": skip to next step")] |}.
Proof.
  assert (exists tables,
            extract_tiktok_data (example_fs "export.json") = Ok (Some tables))
    as [tables E] by (eexists; reflexivity).
  exists tables. split; [exact E|].
  apply (donation_turn_then_skip
           "TikTok" "application/zip, text/plain, application/json"
           (fun path => extract_tiktok_data (example_fs path)) "session"
           "export.json" tables "[]" PayloadVoid PayloadFalse [] [] E).
  discriminate.
Defined.

(** ** Hours *)

(** X25: [hourly_key] keeps the date and the hour of an instant and sets its
    minute and second to zero; it lies at most 59 minutes and 59 seconds
    before the instant, and two instants have the same key exactly when
    they lie in the same hour of the same day. *)
Theorem hourly_key_fields (date : datetime) :
  dt_date (hourly_key date) = dt_date date
  /\ dt_hour (hourly_key date) = dt_hour date
  /\ dt_minute (hourly_key date) = 0
  /\ dt_second (hourly_key date) = 0
  /\ hourly_key date <= date < hourly_key date + 3600
  /\ hourly_key (hourly_key date) = hourly_key date
  /\ forall other, hourly_key date = hourly_key other <->
                   date / 3600 = other / 3600.
Proof.
  unfold dt_date, dt_hour, dt_minute, dt_second, hourly_key.
  assert ((date - date mod 3600) / 86400 = date / 86400) as ->
    by (Z.to_euclidean_division_equations; lia).
  repeat split; try (Z.to_euclidean_division_equations; lia).
Qed.

(** ** The Video posts table *)

Lemma post_stats_add_keys k likes post_stats :
  map fst (post_stats_add k likes post_stats)
  = if decide (k ∈ map fst post_stats) then map fst post_stats
    else map fst post_stats ++ [k].
Proof.
  induction post_stats as [|[k' [videos likes']] post_stats IH]; [done|].
  cbn [post_stats_add map fst]. destruct (Z.eqb_spec k k') as [->|Hne].
  - cbn [map fst]. rewrite decide_True; [done|]. by left.
  - cbn [map fst]. rewrite IH. case_decide as Hin.
    + rewrite decide_True; [done|]. by right.
    + rewrite decide_False; [done|].
      intros [?|?]%elem_of_cons; [by destruct Hne | by destruct Hin].
Qed.

Lemma post_stats_add_NoDup k likes post_stats :
  NoDup (map fst post_stats) -> NoDup (map fst (post_stats_add k likes post_stats)).
Proof.
  intros Hnd. rewrite post_stats_add_keys. case_decide as Hin; [done|].
  apply NoDup_app. split; [done|]. split; [|apply NoDup_singleton].
  intros x Hx ->%list_elem_of_singleton. done.
Qed.

Lemma post_stats_add_elem k likes post_stats k' videos' likes' :
  NoDup (map fst post_stats) ->
  (k', (videos', likes')) ∈ post_stats_add k likes post_stats ->
  (k' <> k /\ (k', (videos', likes')) ∈ post_stats)
  \/ (k' = k
      /\ ((exists videos likes0,
              (k, (videos, likes0)) ∈ post_stats
              /\ videos' = videos + 1 /\ likes' = likes0 + likes)
          \/ ((k ∉ map fst post_stats) /\ videos' = 1 /\ likes' = likes))).
Proof.
  induction post_stats as [|[k0 [videos likes0]] post_stats IH]; intros Hnd.
  - cbn. intros [= -> -> ->]%list_elem_of_singleton. right. split; [done|].
    right. split; [|done]. apply not_elem_of_nil.
  - cbn [map fst] in Hnd. apply NoDup_cons in Hnd as [Hk0 Hnd].
    cbn [post_stats_add]. destruct (Z.eqb_spec k k0) as [->|Hne].
    + intros [[= -> -> ->]|Hin]%elem_of_cons.
      * right. split; [done|]. left. exists videos, likes0.
        split; [by left | done].
      * left. split; [|by right]. intros ->. destruct Hk0.
        apply list_elem_of_fmap. by exists (k0, (videos', likes')).
    + intros [[= -> -> ->]|Hin]%elem_of_cons.
      * left. split; [congruence | by left].
      * destruct (IH Hnd Hin) as [[? ?]|[-> [(v & t & ? & ? & ?)|(? & ? & ?)]]].
        -- left. split; [done | by right].
        -- right. split; [done|]. left. exists v, t. split; [by right | done].
        -- right. split; [done|]. right. split; [|done].
           cbn [map fst]. intros [?|?]%elem_of_cons; [by destruct Hne | done].
Qed.

Lemma post_stats_add_total k likes post_stats :
  total (map (fun entry : datetime * (Z * Z) => entry.2.1)
             (post_stats_add k likes post_stats))
  = total (map (fun entry : datetime * (Z * Z) => entry.2.1) post_stats) + 1.
Proof.
  unfold total.
  induction post_stats as [|[k' [videos likes']] post_stats IH]; [done|].
  cbn [post_stats_add]. destruct (k =? k'); cbn [map foldr fst snd] in *; lia.
Qed.

Lemma count_key_app key_func l1 l2 k :
  count_key key_func (l1 ++ l2) k
  = count_key key_func l1 k + count_key key_func l2 k.
Proof. unfold count_key. rewrite filter_app, length_app. lia. Qed.

Lemma count_key_zero key_func seen k :
  (forall t, t ∈ seen -> key_func t <> k) -> count_key key_func seen k = 0.
Proof.
  intros H. unfold count_key.
  destruct (filter (fun t => key_func t = k) seen) as [|t l] eqn:E; [done|].
  assert (t ∈ filter (fun t => key_func t = k) seen) as Ht
    by (rewrite E; by left).
  apply list_elem_of_filter in Ht as [Hkey Ht]. by destruct (H t Ht).
Qed.

Lemma post_stats_inv_add seen post_stats date likes :
  post_stats_inv seen post_stats ->
  post_stats_inv (seen ++ [date])
                 (post_stats_add (hourly_key date) likes post_stats).
Proof.
  intros (Hnd & Hcover & Hsum & Hcount). split; [|split; [|split]].
  - by apply post_stats_add_NoDup.
  - intros t Ht. rewrite post_stats_add_keys.
    apply elem_of_app in Ht as [Ht| ->%list_elem_of_singleton].
    + case_decide; [by apply Hcover|]. apply elem_of_app. left. by apply Hcover.
    + case_decide; [done|]. apply elem_of_app. right. by left.
  - rewrite post_stats_add_total, Hsum, length_app. cbn. lia.
  - intros k videos likes' Hin. rewrite count_key_app, count_key_cons.
    assert (count_key hourly_key [] k = 0) as -> by done.
    apply post_stats_add_elem in Hin
      as [[Hne Hin]|[-> [(v & t & Hin & -> & ->)|(Hnew & -> & ->)]]]; [| | |done].
    + rewrite decide_False by done. destruct (Hcount _ _ _ Hin). lia.
    + rewrite decide_True by done. destruct (Hcount _ _ _ Hin). lia.
    + rewrite decide_True by done.
      rewrite (count_key_zero hourly_key seen (hourly_key date)); [lia|].
      intros t Ht Hkey. apply Hnew. rewrite <- Hkey. by apply Hcover.
Qed.

Lemma video_posts_loop items : forall tail seen post_stats post_stats',
  post_stats_inv seen post_stats ->
  for_each video_posts_body items tail post_stats = Ok post_stats' ->
  tail = None /\ post_stats_inv (seen ++ map fst items) post_stats'.
Proof.
  induction items as [|[date video_] items IH];
    intros tail seen post_stats post_stats' Hinv H.
  - cbn in H. destruct tail; [done|]. injection H as <-.
    by rewrite app_nil_r.
  - cbn [for_each] in H. bind_inv H stats1 H1.
    unfold video_posts_body in H1. bind_inv H1 likes_text Hl.
    bind_inv H1 likes Hi. injection H1 as <-.
    apply (IH _ (seen ++ [date])) in H; [|by apply post_stats_inv_add].
    cbn [map fst]. by rewrite <- app_assoc in H.
Qed.

Lemma post_stats_inv_nil : post_stats_inv [] [].
Proof.
  split; [constructor|]. split; [by intros t Ht%elem_of_nil|].
  split; [done|]. by intros k videos likes Hin%elem_of_nil.
Qed.

(** X26: The Video posts table groups the posted videos of the window by
    hour: when the extractor returns a table, its rows are built from a
    list of hours without repetition that holds the hour of every video
    of the window, each hour with the number of videos of the window
    posted in it, and the numbers of the Videos column add up to the
    number of videos in the window. *)
Theorem video_posts_grouped_by_hour data er :
  extract_video_posts data = Ok (Some er) ->
  exists video_list post_stats,
    get_in data ["Video"; "Videos"; "VideoList"] = Ok video_list
    /\ rows (data_frame er)
       = map (fun '(k, (videos_, likes)) =>
                [CStr (strftime_date k); CStr (timeslot (dt_hour k));
                 CInt videos_; CInt likes]) post_stats
    /\ NoDup (map fst post_stats)
    /\ (forall t item, (t, item) ∈ omap kept (iterate video_list).1 ->
          hourly_key t ∈ map fst post_stats)
    /\ (forall k videos_ likes,
          (k, (videos_, likes)) ∈ post_stats ->
          0 < videos_
          /\ videos_ = count_key hourly_key
                         (map fst (omap kept (iterate video_list).1)) k)
    /\ total (map (fun entry : datetime * (Z * Z) => entry.2.1) post_stats)
       = window_count (iterate video_list).1.
Proof.
  intros H. unfold extract_video_posts in H. bind_inv H video_list Hv.
  assert (forall post_stats,
            for_each video_posts_body
              (get_date_filtered_items (iterate video_list)).1
              (get_date_filtered_items (iterate video_list)).2 [] = Ok post_stats ->
            NoDup (map fst post_stats)
            /\ (forall t item, (t, item) ∈ omap kept (iterate video_list).1 ->
                  hourly_key t ∈ map fst post_stats)
            /\ (forall k videos_ likes,
                  (k, (videos_, likes)) ∈ post_stats ->
                  0 < videos_
                  /\ videos_ = count_key hourly_key
                                 (map fst (omap kept (iterate video_list).1)) k)
            /\ total (map (fun entry : datetime * (Z * Z) => entry.2.1) post_stats)
               = window_count (iterate video_list).1) as Hloop.
  { intros post_stats Hloop.
    apply (video_posts_loop _ _ [] _ _ post_stats_inv_nil) in Hloop as [Ht Hinv].
    cbn [app] in Hinv. destruct (iterate video_list) as [items tail].
    unfold get_date_filtered_items in *. cbn [fst snd] in *.
    destruct (date_filtered_from items tail) as [out tail'] eqn:E.
    cbn [fst snd] in *. subst tail'.
    apply date_filtered_from_no_exception in E as E'. destruct E' as [-> Hall].
    rewrite (date_filtered_from_all_parse _ _ Hall) in E. injection E as <-.
    destruct Hinv as (Hnd & Hcover & Hsum & Hcount).
    split; [done|]. split; [|split; [done|]].
    - intros t item Hin. apply Hcover. apply list_elem_of_fmap.
      by exists (t, item).
    - rewrite Hsum, length_map. by apply length_omap_kept. }
  destruct video_list; try discriminate H;
    bind_inv H post_stats Hs;
    (destruct post_stats as [|entry post_stats]; [discriminate H|]);
    injection H as <-;
    eexists _, (entry :: post_stats); (split; [exact Hv|]);
    (split; [reflexivity|]); by apply Hloop.
Qed.

Lemma video_posts_grouped_by_hour_witness :
  exists er video_list post_stats,
    extract_video_posts full_document = Ok (Some er)
    /\ get_in full_document ["Video"; "Videos"; "VideoList"] = Ok video_list
    /\ rows (data_frame er)
       = map (fun '(k, (videos_, likes)) =>
                [CStr (strftime_date k); CStr (timeslot (dt_hour k));
                 CInt videos_; CInt likes]) post_stats
    /\ NoDup (map fst post_stats)
    /\ (forall t item, (t, item) ∈ omap kept (iterate video_list).1 ->
          hourly_key t ∈ map fst post_stats)
    /\ (forall k videos_ likes,
          (k, (videos_, likes)) ∈ post_stats ->
          0 < videos_
          /\ videos_ = count_key hourly_key
                         (map fst (omap kept (iterate video_list).1)) k)
    /\ total (map (fun entry : datetime * (Z * Z) => entry.2.1) post_stats)
       = window_count (iterate video_list).1.
Proof.
  assert (exists er, extract_video_posts full_document = Ok (Some er))
    as [er E] by (eexists; reflexivity).
  destruct (video_posts_grouped_by_hour full_document er E)
    as (video_list & post_stats & H).
  exists er, video_list, post_stats. split; [exact E | exact H].
Defined.

(** ** The chat history *)

Lemma chain_threads (threads : list (string * list json)) (others : list (gen json)) :
  chain (map (fun p : string * json => iterate p.2)
             (map (fun thread : string * list json => (thread.1, JArr thread.2))
                  threads)
         ++ others)
  = ((concat (map snd threads)) ++ (chain others).1, (chain others).2).
Proof.
  induction threads as [|[name messages] threads IH].
  - cbn. by destruct (chain others).
  - cbn [map app fst snd iterate chain concat]. rewrite IH.
    by rewrite app_assoc.
Qed.

(** X27: [flatten_chat_history] chains the threads of the history in the
    order of the dict, each with its messages in order; a thread that is
    [None] ends the iteration in a [TypeError] once the messages of the
    threads before it have been yielded; and a history that is no dict
    (such as [None], for a missing section) raises [AttributeError]. *)
Theorem chat_history_flattened (threads : list (string * list json)) :
  flatten_chat_history
    (JObj (map (fun thread : string * list json => (thread.1, JArr thread.2))
               threads))
  = Ok (concat (map snd threads), None)
  /\ (forall name rest,
        flatten_chat_history
          (JObj (map (fun thread : string * list json => (thread.1, JArr thread.2))
                     threads
                 ++ (name, JNull) :: rest))
        = Ok (concat (map snd threads), Some TypeError))
  /\ (forall history, (forall kv, history <> JObj kv) ->
        flatten_chat_history history = Raise AttributeError).
Proof.
  split; [|split].
  - unfold flatten_chat_history.
    pose proof (chain_threads threads []) as H. rewrite app_nil_r in H.
    rewrite H. cbn. by rewrite app_nil_r.
  - intros name rest. unfold flatten_chat_history. rewrite map_app.
    rewrite chain_threads. cbn. by rewrite app_nil_r.
  - intros history H. destruct history; try done. by destruct (H kv).
Qed.
